(** * The Factorio GPT companion service (utility/gpt_assistant_service.py)

    A shallow embedding of the relay service: the configuration record and its
    obfuscated credential, the rate-limit snapshot, the readiness gate, the
    upstream chat call and the three HTTP handlers, followed by the
    properties the specification states about them.

    Python values are modelled as follows.
    - [str] is the list of the string's Unicode code points.
    - [bytes] is the list of the byte values, each in 0..255.
    - An exception is a value of [exn]; a computation that may raise returns
      a [result].
    - The service object, the configuration it shares with the handlers, the
      upstream API, the clock and the configuration file form a [World] that
      every operation threads through. *)

From Stdlib Require Import ZArith List Bool Lia Ascii String Arith DecimalString.
From Stdlib Require Import Floats.
Import ListNotations.
Open Scope Z_scope.
Set Warnings "-register-all".

(** ** Python strings and bytes *)

Definition str := list Z.
Definition bytes := list Z.

Definition str_eq_dec : forall a b : str, {a = b} + {a <> b} :=
  list_eq_dec Z.eq_dec.

Definition str_eqb (a b : str) : bool :=
  if str_eq_dec a b then true else false.

(** The values a byte takes. *)
Definition is_byte (b : Z) : Prop := 0 <= b < 256.

(** A literal whose characters are all ASCII. *)
Definition lit (s : string) : str :=
  map (fun a => Z.of_N (N_of_ascii a)) (list_ascii_of_string s).

(** The bytes of a source literal, as the file stores them (UTF-8). *)
Definition literal_bytes (s : string) : bytes :=
  map (fun a => Z.of_N (N_of_ascii a)) (list_ascii_of_string s).

(** A text of the Latin-1 range: no code point past U+00FF. HTTP header
    names and values reach the service decoded as ISO-8859-1 and are such
    texts. *)
Definition is_latin1 (s : str) : bool :=
  forallb (fun c => (0 <=? c) && (c <? 256)) s.

(** [str.lower()] of a Latin-1 text: the letters A to Z and the capital
    letters of U+00C0 to U+00DE (the sign U+00D7 is none) move 32 up, every
    other character stays. *)
Definition lower_char (c : Z) : Z :=
  if ((65 <=? c) && (c <=? 90))
     || ((192 <=? c) && (c <=? 222) && negb (c =? 215))
  then c + 32 else c.

Definition lower_latin1 (s : str) : str := map lower_char s.

(** A text with its letters A to Z replaced by a to z, and nothing else
    changed. *)
Definition ascii_fold_char (c : Z) : Z :=
  if (65 <=? c) && (c <=? 90) then c + 32 else c.

Definition ascii_fold (s : str) : str := map ascii_fold_char s.

(** [needle in haystack] on two strings: substring search. *)
Fixpoint starts_with (p s : str) : bool :=
  match p, s with
  | [], _ => true
  | _ :: _, [] => false
  | a :: p', b :: s' => (a =? b) && starts_with p' s'
  end.

Fixpoint str_contains (needle s : str) : bool :=
  starts_with needle s
  || match s with
     | [] => false
     | _ :: s' => str_contains needle s'
     end.

(** The decimal text of an integer, [str(n)] and [f"{n}"]. *)
Definition str_of_int (n : Z) : str :=
  lit (DecimalString.NilZero.string_of_int (Z.to_int n)).

(** ** UTF-8, strict, as [str.encode("utf-8")] and [bytes.decode("utf-8")] *)

Module Utf8.

Definition is_surrogate (c : Z) : bool := (0xD800 <=? c) && (c <=? 0xDFFF).

(** A code point that text can hold: a Unicode scalar value. *)
Definition is_scalar (c : Z) : bool :=
  (0 <=? c) && (c <? 0x110000) && negb (is_surrogate c).

(** [None]: UnicodeEncodeError (a lone surrogate). *)
Definition encode_char (c : Z) : option bytes :=
  if negb (is_scalar c) then None
  else if c <? 0x80 then Some [c]
  else if c <? 0x800 then Some [0xC0 + c / 64; 0x80 + c mod 64]
  else if c <? 0x10000 then
    Some [0xE0 + c / 4096; 0x80 + (c / 64) mod 64; 0x80 + c mod 64]
  else
    Some [0xF0 + c / 262144; 0x80 + (c / 4096) mod 64;
          0x80 + (c / 64) mod 64; 0x80 + c mod 64].

Fixpoint encode (s : str) : option bytes :=
  match s with
  | [] => Some []
  | c :: s' =>
      match encode_char c, encode s' with
      | Some b, Some bs => Some (b ++ bs)
      | _, _ => None
      end
  end.

Definition is_cont (b : Z) : bool := (0x80 <=? b) && (b <=? 0xBF).

Definition push (c : Z) (r : option str) : option str :=
  match r with
  | Some s => Some (c :: s)
  | None => None
  end.

(** [None]: UnicodeDecodeError (a stray or missing continuation byte, an
    overlong form, a surrogate, a value past U+10FFFF). *)
Fixpoint decode (bs : bytes) : option str :=
  match bs with
  | [] => Some []
  | b0 :: r0 =>
      if (0 <=? b0) && (b0 <? 0x80) then push b0 (decode r0)
      else if (0xC2 <=? b0) && (b0 <=? 0xDF) then
        match r0 with
        | b1 :: r1 =>
            if is_cont b1
            then push ((b0 - 0xC0) * 64 + (b1 - 0x80)) (decode r1)
            else None
        | _ => None
        end
      else if (0xE0 <=? b0) && (b0 <=? 0xEF) then
        match r0 with
        | b1 :: b2 :: r2 =>
            let c := (b0 - 0xE0) * 4096 + (b1 - 0x80) * 64 + (b2 - 0x80) in
            if is_cont b1 && is_cont b2 && (0x800 <=? c)
               && negb (is_surrogate c)
            then push c (decode r2)
            else None
        | _ => None
        end
      else if (0xF0 <=? b0) && (b0 <=? 0xF4) then
        match r0 with
        | b1 :: b2 :: b3 :: r3 =>
            let c := (b0 - 0xF0) * 262144 + (b1 - 0x80) * 4096
                     + (b2 - 0x80) * 64 + (b3 - 0x80) in
            if is_cont b1 && is_cont b2 && is_cont b3
               && (0x10000 <=? c) && (c <? 0x110000)
            then push c (decode r3)
            else None
        | _ => None
        end
      else None
  end.

End Utf8.

(** A literal with non-ASCII characters: the text its UTF-8 bytes decode to. *)
Definition ulit (s : string) : str :=
  match Utf8.decode (literal_bytes s) with
  | Some t => t
  | None => []
  end.

(** ** Base64, as [base64.b64encode] and [base64.b64decode] *)

Module Base64.

Definition PAD : Z := 61.

(** The character of a six-bit value. *)
Definition b2a (i : Z) : Z :=
  if i <? 26 then 65 + i
  else if i <? 52 then 97 + (i - 26)
  else if i <? 62 then 48 + (i - 52)
  else if i =? 62 then 43
  else 47.

(** The six-bit value of a character, [None] outside the alphabet. *)
Definition a2b (c : Z) : option Z :=
  if (65 <=? c) && (c <=? 90) then Some (c - 65)
  else if (97 <=? c) && (c <=? 122) then Some (c - 97 + 26)
  else if (48 <=? c) && (c <=? 57) then Some (c - 48 + 52)
  else if c =? 43 then Some 62
  else if c =? 47 then Some 63
  else None.

Fixpoint b64encode (bs : bytes) : bytes :=
  match bs with
  | [] => []
  | [a] => [b2a (a / 4); b2a ((a mod 4) * 16); PAD; PAD]
  | [a; b] =>
      [b2a (a / 4); b2a ((a mod 4) * 16 + b / 16); b2a ((b mod 16) * 4); PAD]
  | a :: b :: c :: r =>
      b2a (a / 4) :: b2a ((a mod 4) * 16 + b / 16)
      :: b2a ((b mod 16) * 4 + c / 64) :: b2a (c mod 64) :: b64encode r
  end.

Definition emit (b : Z) (r : option bytes) : option bytes :=
  match r with
  | Some bs => Some (b :: bs)
  | None => None
  end.

(** [binascii.a2b_base64] without strict mode: characters outside the
    alphabet are skipped, a complete run of padding ends the input, and data
    that stops inside a quad is an error ([None]: binascii.Error).
    [quad_pos] is the position inside the current quad, [leftchar] the bits
    carried over, [pads] the padding characters seen since the last data
    character. *)
Fixpoint a2b_base64 (data : bytes) (quad_pos leftchar pads : Z)
  : option bytes :=
  match data with
  | [] => if quad_pos =? 0 then Some [] else None
  | ch :: rest =>
      if ch =? PAD then
        if 2 <=? quad_pos then
          if 4 <=? quad_pos + (pads + 1) then Some []
          else a2b_base64 rest quad_pos leftchar (pads + 1)
        else a2b_base64 rest quad_pos leftchar pads
      else
        match a2b ch with
        | None => a2b_base64 rest quad_pos leftchar pads
        | Some v =>
            if quad_pos =? 0 then a2b_base64 rest 1 v 0
            else if quad_pos =? 1 then
              emit (leftchar * 4 + v / 16) (a2b_base64 rest 2 (v mod 16) 0)
            else if quad_pos =? 2 then
              emit (leftchar * 16 + v / 4) (a2b_base64 rest 3 (v mod 4) 0)
            else emit (leftchar * 64 + v) (a2b_base64 rest 0 0 0)
        end
  end.

Definition b64decode (data : bytes) : option bytes := a2b_base64 data 0 0 0.

End Base64.

Definition is_ascii (c : Z) : bool := (0 <=? c) && (c <? 128).

(** [s.encode("ascii")] and [b.decode("ascii")]: the same values, refused
    ([None]) when one is not below 128. *)
Definition ascii_codec (s : list Z) : option (list Z) :=
  if forallb is_ascii s then Some s else None.

(** ** [int(text)], base ten, of a Latin-1 text

    Leading and trailing white space is dropped, one sign is allowed, the
    digits may be separated by single underscores, and a numeral of more
    than [int_max_str_digits] digits is refused. [None]: ValueError. The
    Latin-1 range has the digits 0 to 9 and the white space below; the
    decimal digits and the white space of the rest of Unicode are left to
    the environment of the service. *)

Definition is_space (c : Z) : bool :=
  ((9 <=? c) && (c <=? 13)) || (c =? 32) || (c =? 0x85) || (c =? 0xA0).

Definition is_digit (c : Z) : bool := (48 <=? c) && (c <=? 57).

Fixpoint lstrip (s : str) : str :=
  match s with
  | [] => []
  | c :: s' => if is_space c then lstrip s' else s
  end.

Definition strip (s : str) : str := rev (lstrip (rev (lstrip s))).

(** The value and the number of digits of a numeral; [after_underscore]
    tells that the previous character was an underscore. *)
Fixpoint numeral (s : str) (after_underscore : bool) (acc count : Z)
  : option (Z * Z) :=
  match s with
  | [] => if after_underscore then None else Some (acc, count)
  | c :: s' =>
      if is_digit c then numeral s' false (10 * acc + (c - 48)) (count + 1)
      else if (c =? 95) && negb after_underscore then numeral s' true acc count
      else None
  end.

Definition int_max_str_digits : Z := 4300.

Definition unsigned_int (s : str) : option Z :=
  match s with
  | [] => None
  | c :: _ =>
      if is_digit c then
        match numeral s false 0 0 with
        | Some (v, count) =>
            if count <=? int_max_str_digits then Some v else None
        | None => None
        end
      else None
  end.

Definition int_latin1 (s : str) : option Z :=
  match strip s with
  | 43 :: s' => unsigned_int s'
  | 45 :: s' => option_map Z.opp (unsigned_int s')
  | s' => unsigned_int s'
  end.

(** ** Exceptions *)

Inductive exn_class :=
| RuntimeError | RecursionError | ValueError | TypeError | AttributeError
| KeyError | UnicodeEncodeError | UnicodeDecodeError | JSONDecodeError
| OverflowError | MemoryError | OSError | RequestException.

(** What [str(exc)] gives: the text the service wrote, or a text composed by
    the interpreter or a library, which is not modelled. Such a text quotes
    what it names in escaped form and holds no lone surrogate. *)
Inductive message :=
| Text (s : str)
| BuiltinText.

Record exn := Exn { exc_type : exn_class; exc_message : message }.

Inductive result (A : Type) :=
| Ok (a : A)
| Raise (e : exn).
Arguments Ok {A} a.
Arguments Raise {A} e.

(** [except cls]: the classes a handler for [cls] catches. *)
Definition catches (cls raised : exn_class) : bool :=
  match cls, raised with
  | RuntimeError, (RuntimeError | RecursionError) => true
  | ValueError, (ValueError | UnicodeEncodeError | UnicodeDecodeError
                 | JSONDecodeError) => true
  | JSONDecodeError, JSONDecodeError => true
  | _, _ => false
  end.

(** ** JSON values, as [json.loads] builds them *)

Definition float := PrimFloat.float.

Inductive json :=
| JNull
| JBool (b : bool)
| JInt (n : Z)
| JFloat (x : float)
| JStr (s : str)
| JList (items : list json)
| JDict (items : list (str * json)).

(** A [dict] with string keys, in insertion order; a key occurs once. *)
Definition dict := list (str * json).

Fixpoint dict_get (d : dict) (key : str) : option json :=
  match d with
  | [] => None
  | (k, v) :: d' => if str_eqb k key then Some v else dict_get d' key
  end.

Definition dict_setdefault (d : dict) (key : str) (v : json) : dict :=
  match dict_get d key with
  | Some _ => d
  | None => d ++ [(key, v)]
  end.

Definition json_of_option {A} (f : A -> json) (o : option A) : json :=
  match o with
  | Some a => f a
  | None => JNull
  end.

(** [bool(v)] *)
Definition py_bool (v : json) : bool :=
  match v with
  | JNull => false
  | JBool b => b
  | JInt n => negb (n =? 0)
  | JFloat x => negb (PrimFloat.eqb x PrimFloat.zero)
  | JStr s => negb (str_eqb s [])
  | JList l => match l with [] => false | _ => true end
  | JDict d => match d with [] => false | _ => true end
  end.

(** [key in v] *)
Definition py_contains (key : str) (v : json) : result bool :=
  match v with
  | JDict d => Ok (match dict_get d key with Some _ => true | None => false end)
  | JList l =>
      Ok (existsb (fun e => match e with
                            | JStr s => str_eqb s key
                            | _ => false
                            end) l)
  | JStr s => Ok (str_contains key s)
  | _ => Raise (Exn TypeError BuiltinText)
  end.

(** [v[key]] with a string key *)
Definition py_getitem (v : json) (key : str) : result json :=
  match v with
  | JDict d =>
      match dict_get d key with
      | Some x => Ok x
      | None => Raise (Exn KeyError BuiltinText)
      end
  | _ => Raise (Exn TypeError BuiltinText)
  end.

(** ** JSON values as bytes

    [json.dumps(v, ensure_ascii=False)] prints the integers in base ten,
    which the interpreter refuses past [int_max_str_digits] digits
    (ValueError), and leaves the characters of the strings as they are, so
    that the UTF-8 encoding of the text, by [str.encode] or by a file opened
    with that encoding, fails on a lone surrogate (UnicodeEncodeError). The
    nesting of the values is taken to be within the recursion limit of the
    interpreter. *)

Fixpoint json_forall (on_int : Z -> bool) (on_str : str -> bool) (v : json)
  : bool :=
  match v with
  | JInt n => on_int n
  | JStr s => on_str s
  | JList items => forallb (json_forall on_int on_str) items
  | JDict items =>
      forallb (fun kv => match kv with
                         | (k, x) => on_str k && json_forall on_int on_str x
                         end) items
  | _ => true
  end.

(** The least number with more digits than [int_max_str_digits]. *)
Definition DIGIT_LIMIT : Z := Eval vm_compute in 10 ^ int_max_str_digits.

(** An integer that [str] and [json.dumps] print. *)
Definition printable (n : Z) : bool := Z.abs n <? DIGIT_LIMIT.

(** A text that has a UTF-8 form. *)
Definition encodable (s : str) : bool := forallb Utf8.is_scalar s.

Definition unicode_encode_error : exn := Exn UnicodeEncodeError BuiltinText.

(** The exception that writing [v] as UTF-8 JSON raises, if any. *)
Definition dumps_error (v : json) : option exn :=
  if negb (json_forall printable (fun _ => true) v)
  then Some (Exn ValueError BuiltinText)
  else if negb (json_forall (fun _ => true) encodable v)
  then Some unicode_encode_error
  else None.

(** ** The data model *)

Record RateLimitInfo := {
  remaining_requests : option Z;
  remaining_tokens : option Z;
  reset_timestamp : option float;
  model : option json
}.

(** [RateLimitInfo(model=model)]: the other fields take their default. *)
Definition RateLimitInfo_new (m : option json) : RateLimitInfo :=
  {| remaining_requests := None; remaining_tokens := None;
     reset_timestamp := None; model := m |}.

Definition to_dict (rl : RateLimitInfo) : dict :=
  [ (lit "model", json_of_option (fun v => v) (model rl));
    (lit "remaining_requests", json_of_option JInt (remaining_requests rl));
    (lit "remaining_tokens", json_of_option JInt (remaining_tokens rl));
    (lit "reset_timestamp", json_of_option JFloat (reset_timestamp rl)) ].

Record ServiceConfig := {
  api_key : option str;
  organization : option str;
  default_model : str;
  profiles : json;
  host : str;
  port : Z;
  tls_enabled : bool;
  consent_acknowledged : bool
}.

Definition DEFAULT_HOST : str := lit "127.0.0.1".
Definition DEFAULT_PORT : Z := 3925.
Definition OPENAI_API_BASE : str := lit "https://api.openai.com/v1".

(** [not secret] for an optional string: [None] and the empty string. *)
Definition falsy (s : option str) : bool :=
  match s with
  | None => true
  | Some t => str_eqb t []
  end.

Definition _encode_secret (secret : option str) : result (option str) :=
  match secret with
  | None => Ok None
  | Some s =>
      if falsy secret then Ok None
      else
        match Utf8.encode s with
        | None => Raise unicode_encode_error
        | Some raw =>
            match ascii_codec (Base64.b64encode raw) with
            | Some t => Ok (Some t)
            | None => Raise (Exn UnicodeDecodeError BuiltinText)
            end
        end
  end.

(** Every failure inside is caught ([except Exception]) and gives [None]. *)
Definition _decode_secret (secret : option str) : option str :=
  match secret with
  | None => None
  | Some s =>
      if falsy secret then None
      else
        match ascii_codec s with
        | None => None
        | Some raw =>
            match Base64.b64decode raw with
            | None => None
            | Some b => Utf8.decode b
            end
        end
  end.

(** The object [to_json] serialises; [json.dumps] itself is not modelled. *)
Definition to_json (cfg : ServiceConfig) : result json :=
  match _encode_secret (api_key cfg) with
  | Raise e => Raise e
  | Ok secret =>
      Ok (JDict
            [ (lit "api_key", json_of_option JStr secret);
              (lit "organization", json_of_option JStr (organization cfg));
              (lit "default_model", JStr (default_model cfg));
              (lit "profiles", profiles cfg);
              (lit "host", JStr (host cfg));
              (lit "port", JInt (port cfg));
              (lit "tls_enabled", JBool (tls_enabled cfg));
              (lit "consent_acknowledged", JBool (consent_acknowledged cfg)) ])
  end.

(** ** The upstream API, the HTTP front end and the world *)

(** One [requests.post(url, headers=..., json=..., timeout=...)]. *)
Record PostCall := {
  url : str;
  post_headers : list (str * str);
  post_json : json;
  timeout : Z
}.

(** What [requests.post] returns. [resp_headers] lists the header map in
    iteration order. *)
Record Response := {
  status_code : Z;
  resp_text : str;
  resp_headers : list (str * str)
}.

(** An inbound request: its path, the Content-Length header when there is
    one, and the bytes that can be read from the connection. *)
Record Request := {
  path : str;
  content_length : option str;
  rfile : bytes
}.

Record StatusBody := {
  st_ready : bool;
  st_error : option message;
  st_host : str;
  st_port : Z;
  st_default_model : str;
  st_profiles : json;
  st_rate_limit : dict
}.

(** The objects handed to [_write_json]. *)
Inductive Payload :=
| StatusPayload (body : StatusBody)
| ChatPayload (result : json) (rate_limit_dict : dict)
| StatusOk
| ErrorPayload (error : message).

Record HttpResponse := {
  http_status : Z;
  http_body : Payload
}.

Definition json_of_message (m : message) : json :=
  match m with
  | Text s => JStr s
  | BuiltinText => JStr []
  end.

(** The dict a payload stands for, as [json.dumps] gets it. The characters
    of an interpreter text are not modelled; none of them is a surrogate. *)
Definition payload_json (p : Payload) : json :=
  match p with
  | StatusPayload body =>
      JDict [ (lit "ready", JBool (st_ready body));
              (lit "error", json_of_option json_of_message (st_error body));
              (lit "host", JStr (st_host body));
              (lit "port", JInt (st_port body));
              (lit "default_model", JStr (st_default_model body));
              (lit "profiles", st_profiles body);
              (lit "rate_limit", JDict (st_rate_limit body)) ]
  | ChatPayload result rate_limit_dict =>
      JDict [ (lit "result", result);
              (lit "rate_limit", JDict rate_limit_dict) ]
  | StatusOk => JDict [(lit "status", JStr (lit "ok"))]
  | ErrorPayload error => JDict [(lit "error", json_of_message error)]
  end.

Definition OK : Z := 200.
Definition BAD_REQUEST : Z := 400.
Definition NOT_FOUND : Z := 404.
Definition INTERNAL_SERVER_ERROR : Z := 500.

(** The configuration file. *)
Inductive ConfigFile :=
| Absent
| Truncated
| Stored (data : json).

(** [config] and [rate_limit] are the fields of the one service instance;
    [upstream_calls] lists the calls made to the upstream API, oldest first;
    [clock_reads] and [save_calls] count the readings of the clock and the
    calls of [save]. *)
Record World := {
  config : ServiceConfig;
  rate_limit : RateLimitInfo;
  upstream_calls : list PostCall;
  clock_reads : nat;
  save_calls : nat;
  config_file : ConfigFile
}.

Definition with_config (cfg : ServiceConfig) (w : World) : World :=
  {| config := cfg; rate_limit := rate_limit w;
     upstream_calls := upstream_calls w; clock_reads := clock_reads w;
     save_calls := save_calls w; config_file := config_file w |}.

Definition with_rate_limit (rl : RateLimitInfo) (w : World) : World :=
  {| config := config w; rate_limit := rl;
     upstream_calls := upstream_calls w; clock_reads := clock_reads w;
     save_calls := save_calls w; config_file := config_file w |}.

Definition with_upstream_calls (l : list PostCall) (w : World) : World :=
  {| config := config w; rate_limit := rate_limit w;
     upstream_calls := l; clock_reads := clock_reads w;
     save_calls := save_calls w; config_file := config_file w |}.

Definition with_clock_reads (n : nat) (w : World) : World :=
  {| config := config w; rate_limit := rate_limit w;
     upstream_calls := upstream_calls w; clock_reads := n;
     save_calls := save_calls w; config_file := config_file w |}.

Definition with_save_calls (n : nat) (w : World) : World :=
  {| config := config w; rate_limit := rate_limit w;
     upstream_calls := upstream_calls w; clock_reads := clock_reads w;
     save_calls := n; config_file := config_file w |}.

Definition with_config_file (f : ConfigFile) (w : World) : World :=
  {| config := config w; rate_limit := rate_limit w;
     upstream_calls := upstream_calls w; clock_reads := clock_reads w;
     save_calls := save_calls w; config_file := f |}.

Definition with_default_model (m : str) (cfg : ServiceConfig) : ServiceConfig :=
  {| api_key := api_key cfg; organization := organization cfg;
     default_model := m; profiles := profiles cfg; host := host cfg;
     port := port cfg; tls_enabled := tls_enabled cfg;
     consent_acknowledged := consent_acknowledged cfg |}.

Definition with_profiles (p : json) (cfg : ServiceConfig) : ServiceConfig :=
  {| api_key := api_key cfg; organization := organization cfg;
     default_model := default_model cfg; profiles := p; host := host cfg;
     port := port cfg; tls_enabled := tls_enabled cfg;
     consent_acknowledged := consent_acknowledged cfg |}.

Definition with_consent (b : bool) (cfg : ServiceConfig) : ServiceConfig :=
  {| api_key := api_key cfg; organization := organization cfg;
     default_model := default_model cfg; profiles := profiles cfg;
     host := host cfg; port := port cfg; tls_enabled := tls_enabled cfg;
     consent_acknowledged := b |}.

Definition with_api_key (k : option str) (cfg : ServiceConfig) : ServiceConfig :=
  {| api_key := k; organization := organization cfg;
     default_model := default_model cfg; profiles := profiles cfg;
     host := host cfg; port := port cfg; tls_enabled := tls_enabled cfg;
     consent_acknowledged := consent_acknowledged cfg |}.

Definition with_remaining_requests (v : option Z) (rl : RateLimitInfo) :=
  {| remaining_requests := v; remaining_tokens := remaining_tokens rl;
     reset_timestamp := reset_timestamp rl; model := model rl |}.

Definition with_remaining_tokens (v : option Z) (rl : RateLimitInfo) :=
  {| remaining_requests := remaining_requests rl; remaining_tokens := v;
     reset_timestamp := reset_timestamp rl; model := model rl |}.

Definition with_reset_timestamp (v : option float) (rl : RateLimitInfo) :=
  {| remaining_requests := remaining_requests rl;
     remaining_tokens := remaining_tokens rl;
     reset_timestamp := v; model := model rl |}.

(** A computation of the service: it reads and changes the world, and
    returns or raises. What it changed before raising stays changed. *)
Definition M (A : Type) : Type := World -> result A * World.

Definition ret {A} (a : A) : M A := fun w => (Ok a, w).

Definition raise {A} (e : exn) : M A := fun w => (Raise e, w).

Definition bind {A B} (c : M A) (k : A -> M B) : M B :=
  fun w =>
    match c w with
    | (Ok a, w') => k a w'
    | (Raise e, w') => (Raise e, w')
    end.

Definition lift {A} (r : result A) : M A := fun w => (r, w).

Notation "x <- c ;; k" := (bind c (fun x => k))
  (at level 61, c at next level, right associativity).
Notation "c ;;; k" := (bind c (fun _ => k))
  (at level 61, right associativity).

(** [try: body / except cls as exc: handler exc] *)
Definition try_except {A} (body : M A) (cls : option exn_class)
  (handler : exn -> M A) : M A :=
  fun w =>
    match body w with
    | (Ok a, w') => (Ok a, w')
    | (Raise e, w') =>
        if match cls with
           | Some c => catches c (exc_type e)
           | None => true
           end
        then handler e w'
        else (Raise e, w')
    end.

(** [except Exception] *)
Definition Exception : option exn_class := None.
Definition except (c : exn_class) : option exn_class := Some c.

Definition get_config : M ServiceConfig := fun w => (Ok (config w), w).

Definition modify_config (f : ServiceConfig -> ServiceConfig) : M unit :=
  fun w => (Ok tt, with_config (f (config w)) w).

(** ** Loading the configuration *)

(** [ServiceConfig()]: every field at its default. *)
#[warnings="-inexact-float"]
Definition ServiceConfig_default : ServiceConfig :=
  {| api_key := None;
     organization := None;
     default_model := lit "gpt-4o";
     profiles :=
       JDict
         [ (lit "gpt-4o",
            JDict [(lit "temperature", JFloat 0.4%float);
                   (lit "max_tokens", JInt 2048)]);
           (lit "gpt-4.1",
            JDict [(lit "temperature", JFloat 0.2%float);
                   (lit "max_tokens", JInt 2048)]);
           (lit "gpt-4.1-mini",
            JDict [(lit "temperature", JFloat 0.3%float);
                   (lit "max_tokens", JInt 1024)]) ];
     host := DEFAULT_HOST;
     port := DEFAULT_PORT;
     tls_enabled := false;
     consent_acknowledged := false |}.

(** The object [load] returns. [load] assigns what the file holds without
    looking at its type, so every attribute but the credential is a JSON
    value here ([JNull] stands for [None]). *)
Record LoadedConfig := {
  loaded_api_key : option str;
  loaded_organization : json;
  loaded_default_model : json;
  loaded_profiles : json;
  loaded_host : json;
  loaded_port : json;
  loaded_tls_enabled : json;
  loaded_consent_acknowledged : json
}.

(** [data.get(key, default)] *)
Definition dict_get_default (d : dict) (key : str) (default : json) : json :=
  match dict_get d key with
  | Some v => v
  | None => default
  end.

(** [_decode_secret(data.get("api_key"))]: a value that is no string is
    either falsy or has no [encode] method, and both give [None]. *)
Definition decode_stored_secret (v : option json) : option str :=
  match v with
  | Some (JStr s) => _decode_secret (Some s)
  | _ => None
  end.

(** [ServiceConfig.load], on the state of the configuration file. The file
    holds the value [to_json] serialised; a file that was emptied, or
    written in part, is no JSON document. Reading an existing file is taken
    to succeed. *)
Definition load (file : ConfigFile) : result LoadedConfig :=
  match file with
  | Absent =>
      let cfg := ServiceConfig_default in
      Ok {| loaded_api_key := api_key cfg;
            loaded_organization := json_of_option JStr (organization cfg);
            loaded_default_model := JStr (default_model cfg);
            loaded_profiles := profiles cfg;
            loaded_host := JStr (host cfg);
            loaded_port := JInt (port cfg);
            loaded_tls_enabled := JBool (tls_enabled cfg);
            loaded_consent_acknowledged := JBool (consent_acknowledged cfg) |}
  | Truncated => Raise (Exn JSONDecodeError BuiltinText)
  | Stored (JDict data) =>
      let cfg := ServiceConfig_default in
      Ok {| loaded_api_key := decode_stored_secret (dict_get data (lit "api_key"));
            loaded_organization :=
              dict_get_default data (lit "organization") JNull;
            loaded_default_model :=
              dict_get_default data (lit "default_model")
                (JStr (default_model cfg));
            loaded_profiles :=
              dict_get_default data (lit "profiles") (profiles cfg);
            loaded_host := dict_get_default data (lit "host") (JStr (host cfg));
            loaded_port := dict_get_default data (lit "port") (JInt (port cfg));
            loaded_tls_enabled :=
              dict_get_default data (lit "tls_enabled")
                (JBool (tls_enabled cfg));
            loaded_consent_acknowledged :=
              dict_get_default data (lit "consent_acknowledged")
                (JBool false) |}
  | Stored _ => Raise (Exn AttributeError BuiltinText)
  end.

(** The loaded object as a [ServiceConfig], when every attribute has the
    type the class declares for it. *)
Definition as_ServiceConfig (l : LoadedConfig) : option ServiceConfig :=
  match loaded_organization l, loaded_default_model l, loaded_host l,
        loaded_port l, loaded_tls_enabled l, loaded_consent_acknowledged l with
  | org, JStr m, JStr h, JInt p, JBool t, JBool c =>
      match match org with
            | JNull => Some None
            | JStr o => Some (Some o)
            | _ => None
            end with
      | Some o =>
          Some {| api_key := loaded_api_key l; organization := o;
                  default_model := m; profiles := loaded_profiles l;
                  host := h; port := p; tls_enabled := t;
                  consent_acknowledged := c |}
      | None => None
      end
  | _, _, _, _, _, _ => None
  end.

(** An optional string when it is truthy, and [None] when it is [None] or
    empty. *)
Definition non_empty (k : option str) : option str :=
  if falsy k then None else k.

(** ** Proof tactics *)

(** Linear arithmetic with division and remainder by constants. *)
Ltac zsolve := Z.div_mod_to_equations; lia.

(** Case analysis on every comparison of the goal. *)
Ltac split_tests :=
  repeat match goal with
  | |- context [ ?a <=? ?b ] => destruct (Z.leb_spec a b)
  | |- context [ ?a <? ?b ] => destruct (Z.ltb_spec a b)
  | |- context [ ?a =? ?b ] => destruct (Z.eqb_spec a b)
  end.

(** Settles the comparisons of the goal that arithmetic decides. *)
Ltac decide_test :=
  match goal with
  | |- context [ ?a <=? ?b ] =>
      first [ replace (a <=? b) with true by (symmetry; apply Z.leb_le; zsolve)
            | replace (a <=? b) with false by (symmetry; apply Z.leb_gt; zsolve) ]
  | |- context [ ?a <? ?b ] =>
      first [ replace (a <? b) with true by (symmetry; apply Z.ltb_lt; zsolve)
            | replace (a <? b) with false by (symmetry; apply Z.ltb_ge; zsolve) ]
  end.

(** The methods of the requests the handlers serve. *)
Inductive Method := GET | POST.

(** ** Sample environments

    Stand-ins for the parts of the environment the service is given, used
    where a property is run on a concrete request. *)

Module Sample.

(** The text [s] between double quotes. *)
Definition quoted (s : str) : str := 34 :: s ++ [34].

(** The bodies [{}], [{"default_model": "x"}] and [{"profiles": 5}]. *)
Definition EMPTY_OBJECT : str := lit "{}".
Definition DEFAULT_MODEL_X : str :=
  lit "{" ++ quoted (lit "default_model") ++ lit ": " ++ quoted (lit "x")
  ++ lit "}".
Definition PROFILES_5 : str :=
  lit "{" ++ quoted (lit "profiles") ++ lit ": 5}".

(** A parser that knows these three documents and refuses every other text. *)
Definition json_loads (s : str) : json + exn_class :=
  if str_eqb s EMPTY_OBJECT then inl (JDict [])
  else if str_eqb s DEFAULT_MODEL_X then
    inl (JDict [(lit "default_model", JStr (lit "x"))])
  else if str_eqb s PROFILES_5 then inl (JDict [(lit "profiles", JInt 5)])
  else inr JSONDecodeError.

(** An [int] that knows one numeral written with other digits than 0 to 9,
    the Arabic-Indic four and two. *)
Definition int_unicode (s : str) : option Z :=
  if str_eqb s [0x664; 0x662] then Some 42 else None.

(** A [lower] that knows no letter past U+00FF. *)
Definition lower_unicode (s : str) : str := s.

(** A connection whose reads always get their buffer. *)
Definition buffer_ok (n : Z) : option exn_class := None.

(** A [float] that knows one numeral. *)
Definition float_of_str (s : str) : option float :=
  if str_eqb s (lit "1.5") then Some 1.5%float else None.

Definition py_repr (v : json) : str := lit "...".

(** A clock that stands still. *)
Definition time_time (n : nat) : float := 1700000000%float.

(** An upstream API that gives the same answer to every call. *)
Definition answers (r : Response) (n : nat) (call : PostCall)
  : result Response := Ok r.

(** A file system that works, and one whose files cannot be opened. *)
Definition fs_ok (n : nat) : option exn := None.
Definition fs_denied (n : nat) : option exn :=
  Some (Exn OSError (Text (lit "[Errno 13] Permission denied"))).

Definition cfg_ready : ServiceConfig :=
  {| api_key := Some (lit "sk-test"); organization := None;
     default_model := lit "gpt-4o"; profiles := JDict [];
     host := DEFAULT_HOST; port := DEFAULT_PORT; tls_enabled := false;
     consent_acknowledged := true |}.

Definition cfg_no_key : ServiceConfig := with_api_key None cfg_ready.

Definition cfg_no_consent : ServiceConfig := with_consent false cfg_ready.

(** A configuration whose default model is a lone surrogate. *)
Definition cfg_surrogate : ServiceConfig := with_default_model [0xD800] cfg_ready.

(** The world of a service that has just started with [cfg]. *)
Definition started (cfg : ServiceConfig) : World :=
  {| config := cfg; rate_limit := RateLimitInfo_new None;
     upstream_calls := []; clock_reads := 0; save_calls := 0;
     config_file := Absent |}.

(** A chat payload that names no model. *)
Definition chat_payload : json :=
  JDict [(lit "messages", JList [])].

Definition post_config (body : str) : Request :=
  {| path := lit "/config";
     content_length := Some (str_of_int (Z.of_nat (List.length body)));
     rfile := body |}.

Definition get_status : Request :=
  {| path := lit "/status"; content_length := None; rfile := [] |}.

Definition unauthorized : Response :=
  {| status_code := 401; resp_text := lit "invalid key"; resp_headers := [] |}.

Definition multiple_choices : Response :=
  {| status_code := 300; resp_text := lit "{}";
     resp_headers := [(lit "x-ratelimit-remaining-requests", lit "7")] |}.

Definition success : Response :=
  {| status_code := 200; resp_text := lit "{}";
     resp_headers :=
       [ (lit "Content-Type", lit "application/json");
         (lit "X-RateLimit-Remaining-Requests", lit "42");
         (lit "x-ratelimit-remaining-tokens", lit "1000") ] |}.

(** The bodies [{"messages": []}], [[]] and [5]. *)
Definition CHAT_BODY : str :=
  lit "{" ++ quoted (lit "messages") ++ lit ": []}".
Definition EMPTY_ARRAY : str := lit "[]".
Definition FIVE : str := lit "5".

(** The body of a numeral past the digit limit of the interpreter. *)
Definition LONG_NUMERAL : str := repeat 49 5000.

(** A parser that knows the documents above, raises the ValueError of the
    digit limit on the long numeral, and refuses every other text. *)
Definition json_loads_more (s : str) : json + exn_class :=
  if str_eqb s CHAT_BODY then inl chat_payload
  else if str_eqb s EMPTY_ARRAY then inl (JList [])
  else if str_eqb s FIVE then inl (JInt 5)
  else if str_eqb s LONG_NUMERAL then inr ValueError
  else json_loads s.

Definition post_chat (body : str) : Request :=
  {| path := lit "/chat";
     content_length := Some (str_of_int (Z.of_nat (List.length body)));
     rfile := body |}.

(** A 200 answer whose body is no JSON document. *)
Definition success_html : Response :=
  {| status_code := 200; resp_text := lit "<html>";
     resp_headers := [(lit "x-ratelimit-remaining-requests", lit "9")] |}.

(** An upstream API that cannot be reached. *)
Definition unreachable (n : nat) (call : PostCall) : result Response :=
  Raise (Exn RequestException (Text (lit "Connection refused"))).

Definition no_content : Response :=
  {| status_code := 204; resp_text := []; resp_headers := [] |}.

(** The body [{"consent_acknowledged": "false"}]. *)
Definition CONSENT_FALSE_TEXT : str :=
  lit "{" ++ quoted (lit "consent_acknowledged") ++ lit ": "
  ++ quoted (lit "false") ++ lit "}".

(** The body [{"model": "gpt-4.1", "messages": []}] and its payload. *)
Definition CHAT_BODY_MODEL : str :=
  lit "{" ++ quoted (lit "model") ++ lit ": " ++ quoted (lit "gpt-4.1")
  ++ lit ", " ++ quoted (lit "messages") ++ lit ": []}".

Definition chat_payload_model : dict :=
  [(lit "model", JStr (lit "gpt-4.1")); (lit "messages", JList [])].

(** The body [{"result": "\ud800"}] of an upstream answer, and an answer
    that carries it. *)
Definition RESULT_SURROGATE : str :=
  lit "{" ++ quoted (lit "result") ++ lit ": " ++ quoted (lit "\ud800")
  ++ lit "}".

Definition success_surrogate : Response :=
  {| status_code := 200; resp_text := RESULT_SURROGATE; resp_headers := [] |}.

(** A parser that knows these documents too. *)
Definition json_loads_all (s : str) : json + exn_class :=
  if str_eqb s CONSENT_FALSE_TEXT then
    inl (JDict [(lit "consent_acknowledged", JStr (lit "false"))])
  else if str_eqb s CHAT_BODY_MODEL then inl (JDict chat_payload_model)
  else if str_eqb s RESULT_SURROGATE then
    inl (JDict [(lit "result", JStr [0xD800])])
  else json_loads_more s.

(** Three requests to a server. *)
Definition three_requests : list (Method * Request) :=
  [ (POST, post_chat CHAT_BODY);
    (POST, post_config DEFAULT_MODEL_X);
    (GET, get_status) ].

End Sample.

(** ** The service *)

Section Service.

(** What the model leaves to the environment: the parsers and printers of
    the interpreter that are not modelled, the clock, the upstream API and
    the file system. *)

(** [float(text)]; [None]: ValueError. *)
Variable float_of_str : str -> option float.
(** [repr] of a float, a list or a dict. *)
Variable py_repr : json -> str.
(** [json.loads(text)]: the value, or the class of the exception it raises
    with a text of its own (JSONDecodeError for a text that is no JSON
    document, ValueError for a numeral past the digit limit, RecursionError
    for a nesting past the recursion limit). *)
Variable json_loads : str -> json + exn_class.
(** [int(text)] and [text.lower()] of a text that has a code point past
    U+00FF. *)
Variable int_unicode : str -> option Z.
Variable lower_unicode : str -> str.
(** Whether [rfile.read(n)] fails to get a buffer of [n] bytes, and with
    which class (OverflowError, MemoryError). *)
Variable buffer_error : Z -> option exn_class.
(** The n-th reading of [time.time()]. *)
Variable time_time : nat -> float.
(** The answer to the n-th upstream call, or the exception it raises (no
    connection, timeout). *)
Variable requests_post : nat -> PostCall -> result Response.
(** Whether creating the directory and opening the file fails in the n-th
    [save], and whether writing to it fails. *)
Variable fs_open : nat -> option exn.
Variable fs_write : nat -> option exn.

(** [text.lower()] *)
Definition lower (s : str) : str :=
  if is_latin1 s then lower_latin1 s else lower_unicode s.

(** [int(text)]; [None]: ValueError. *)
Definition py_int (s : str) : option Z :=
  if is_latin1 s then int_latin1 s else int_unicode s.

Definition int_ (s : str) : result Z :=
  match py_int s with
  | Some n => Ok n
  | None => Raise (Exn ValueError BuiltinText)
  end.

Definition float_ (s : str) : result float :=
  match float_of_str s with
  | Some x => Ok x
  | None => Raise (Exn ValueError BuiltinText)
  end.

(** [str(v)] *)
Definition py_str (v : json) : str :=
  match v with
  | JStr s => s
  | JNull => lit "None"
  | JBool true => lit "True"
  | JBool false => lit "False"
  | JInt n => str_of_int n
  | _ => py_repr v
  end.

(** [payload.get(key)]: only a dict has the method. *)
Definition py_get (payload : json) (key : str) : result (option json) :=
  match payload with
  | JDict d => Ok (dict_get d key)
  | _ => Raise (Exn AttributeError BuiltinText)
  end.

(** [payload.setdefault(key, v)], for its effect on the payload. *)
Definition py_setdefault (payload : json) (key : str) (v : json) : json :=
  match payload with
  | JDict d => JDict (dict_setdefault d key v)
  | _ => payload
  end.

Definition the_clock : M float :=
  fun w => (Ok (time_time (clock_reads w)),
            with_clock_reads (S (clock_reads w)) w).

Definition REMAINING_REQUESTS : str := lit "x-ratelimit-remaining-requests".
Definition REMAINING_TOKENS : str := lit "x-ratelimit-remaining-tokens".
Definition RESET_REQUESTS : str := lit "x-ratelimit-reset-requests".

(** The loop of [update_rate_limit] over [headers.items()], on the local
    snapshot [rl]. *)
Fixpoint scan_headers (headers : list (str * str)) (rl : RateLimitInfo)
  : M RateLimitInfo :=
  match headers with
  | [] => ret rl
  | (key, value) :: rest =>
      let key_lower := lower key in
      rl' <-
        (if str_eqb key_lower REMAINING_REQUESTS then
           try_except
             (n <- lift (int_ value) ;;
              ret (with_remaining_requests (Some n) rl))
             (except ValueError)
             (fun _ => ret (with_remaining_requests None rl))
         else if str_eqb key_lower REMAINING_TOKENS then
           try_except
             (n <- lift (int_ value) ;;
              ret (with_remaining_tokens (Some n) rl))
             (except ValueError)
             (fun _ => ret (with_remaining_tokens None rl))
         else if str_eqb key_lower RESET_REQUESTS then
           try_except
             (now <- the_clock ;;
              delta <- lift (float_ value) ;;
              ret (with_reset_timestamp (Some (PrimFloat.add now delta)) rl))
             (except ValueError)
             (fun _ => ret (with_reset_timestamp None rl))
         else ret rl) ;;
      scan_headers rest rl'
  end.

Definition update_rate_limit (headers : list (str * str)) (model_ : json)
  : M unit :=
  rl <- scan_headers headers (RateLimitInfo_new (Some model_)) ;;
  fun w => (Ok tt, with_rate_limit rl w).

Definition get_rate_limit : M RateLimitInfo :=
  fun w =>
    (Ok {| remaining_requests := remaining_requests (rate_limit w);
           remaining_tokens := remaining_tokens (rate_limit w);
           reset_timestamp := reset_timestamp (rate_limit w);
           model := model (rate_limit w) |}, w).

Definition API_KEY_NOT_CONFIGURED : exn :=
  Exn RuntimeError
    (Text (ulit "API key not configured. Запустите скрипт с флагом --setup.")).

Definition CONSENT_NOT_ACKNOWLEDGED : exn :=
  Exn RuntimeError
    (Text (lit "Consent not acknowledged. Run with --setup to accept.")).

Definition ensure_ready : M unit :=
  cfg <- get_config ;;
  if falsy (api_key cfg) then raise API_KEY_NOT_CONFIGURED
  else if negb (consent_acknowledged cfg) then raise CONSENT_NOT_ACKNOWLEDGED
  else ret tt.

Definition post (call : PostCall) : M Response :=
  fun w =>
    (requests_post (List.length (upstream_calls w)) call,
     with_upstream_calls (upstream_calls w ++ [call]) w).

(** [f"{v}"] for an optional string. *)
Definition format_opt (v : option str) : str :=
  match v with
  | Some s => s
  | None => lit "None"
  end.

(** [json.loads(text)] as a computation. *)
Definition loads (text : str) : result json :=
  match json_loads text with
  | inl v => Ok v
  | inr cls => Raise (Exn cls BuiltinText)
  end.

(** [response.json()] *)
Definition response_json (response : Response) : result json :=
  loads (resp_text response).

Definition openai_error (response : Response) : exn :=
  Exn RuntimeError
    (Text (lit "OpenAI error " ++ str_of_int (status_code response)
           ++ lit ": " ++ resp_text response)).

(** The model the call is made for: [payload.get("model") or default]. *)
Definition effective_model (got : option json) (cfg : ServiceConfig) : json :=
  match got with
  | Some v => if py_bool v then v else JStr (default_model cfg)
  | None => JStr (default_model cfg)
  end.

(** The arguments of the [requests.post] of [call_openai]. *)
Definition chat_completions (cfg : ServiceConfig) (payload : json) : PostCall :=
  {| url := OPENAI_API_BASE ++ lit "/chat/completions";
     post_headers :=
       [ (lit "Authorization", lit "Bearer " ++ format_opt (api_key cfg));
         (lit "Content-Type", lit "application/json") ]
       ++ (if falsy (organization cfg) then []
           else [(lit "OpenAI-Organization", format_opt (organization cfg))]);
     post_json := payload;
     timeout := 90 |}.

Definition call_openai (payload : json) : M json :=
  ensure_ready ;;;
  cfg <- get_config ;;
  got <- lift (py_get payload (lit "model")) ;;
  let model_ := effective_model got cfg in
  let payload' := py_setdefault payload (lit "model") model_ in
  response <- post (chat_completions cfg payload') ;;
  if 400 <=? status_code response then raise (openai_error response)
  else
    update_rate_limit (resp_headers response) model_ ;;;
    lift (response_json response).

(** [ServiceConfig.save]: the directory is made and the file opened (and so
    emptied) before [to_json] is evaluated and written. The text of
    [to_json] is [json.dumps] of its object, and the file encodes what is
    written to it as UTF-8. *)
Definition save : M unit :=
  fun w =>
    let n := save_calls w in
    let w1 := with_save_calls (S n) w in
    match fs_open n with
    | Some e => (Raise e, w1)
    | None =>
        let w2 := with_config_file Truncated w1 in
        match to_json (config w) with
        | Raise e => (Raise e, w2)
        | Ok data =>
            match dumps_error data with
            | Some e => (Raise e, w2)
            | None =>
                match fs_write n with
                | Some e => (Raise e, w2)
                | None => (Ok tt, with_config_file (Stored data) w2)
                end
            end
        end
    end.

(** [rfile.read(n)] on a connection that delivers the bytes [r] and then
    ends: [n] bytes, fewer when the connection ends first; all of them when
    [n] is -1; a ValueError when [n] is below -1. *)
Definition read (r : bytes) (n : Z) : result bytes :=
  if n <? -1 then Raise (Exn ValueError BuiltinText)
  else if n =? -1 then Ok r
  else
    match buffer_error n with
    | Some cls => Raise (Exn cls BuiltinText)
    | None => Ok (firstn (Z.to_nat n) r)
    end.

Definition INVALID_JSON : exn := Exn ValueError (Text (lit "Invalid JSON payload")).

Definition _read_json (req : Request) : M json :=
  length_ <- lift (int_ (match content_length req with
                         | Some v => v
                         | None => lit "0"
                         end)) ;;
  data <- lift (if length_ =? 0 then Ok (lit "{}")
                else read (rfile req) length_) ;;
  try_except
    (match Utf8.decode data with
     | None => raise (Exn UnicodeDecodeError BuiltinText)
     | Some t => lift (loads t)
     end)
    (except JSONDecodeError)
    (fun _ => raise INVALID_JSON).

(** [_write_json]: the body is serialised before anything is sent, so that a
    payload that cannot be written raises with nothing sent. The connection
    is taken to accept what is sent, and the request log to be writable. *)
Definition _write_json (payload : Payload) (status : Z) : M HttpResponse :=
  match dumps_error (payload_json payload) with
  | Some e => raise e
  | None => ret {| http_status := status; http_body := payload |}
  end.

Definition NOT_FOUND_BODY : Payload := ErrorPayload (Text (lit "Not found")).

Definition do_GET (req : Request) : M HttpResponse :=
  if str_eqb (path req) (lit "/status") then
    cfg <- get_config ;;
    outcome <- try_except
                 (ensure_ready ;;; ret (true, None))
                 (except RuntimeError)
                 (fun exc => ret (false, Some (exc_message exc))) ;;
    rl <- get_rate_limit ;;
    _write_json
      (StatusPayload
         {| st_ready := fst outcome;
            st_error := snd outcome;
            st_host := host cfg;
            st_port := port cfg;
            st_default_model := default_model cfg;
            st_profiles := profiles cfg;
            st_rate_limit := to_dict rl |})
      OK
  else _write_json NOT_FOUND_BODY NOT_FOUND.

(** [if key in payload: assign(payload[key])] *)
Definition patch_field (payload : json) (key : str)
  (assign : json -> ServiceConfig -> ServiceConfig) : M unit :=
  present <- lift (py_contains key payload) ;;
  if (present : bool) then
    v <- lift (py_getitem payload key) ;;
    modify_config (assign v)
  else ret tt.

Definition do_POST (req : Request) : M HttpResponse :=
  if str_eqb (path req) (lit "/chat") then
    try_except
      (payload <- _read_json req ;;
       result <- call_openai payload ;;
       rl <- get_rate_limit ;;
       _write_json (ChatPayload result (to_dict rl)) OK)
      Exception
      (fun exc => _write_json (ErrorPayload (exc_message exc))
                    INTERNAL_SERVER_ERROR)
  else if str_eqb (path req) (lit "/config") then
    try_except
      (payload <- _read_json req ;;
       patch_field payload (lit "default_model")
         (fun v => with_default_model (py_str v)) ;;;
       patch_field payload (lit "profiles")
         (fun v => with_profiles v) ;;;
       patch_field payload (lit "consent_acknowledged")
         (fun v => with_consent (py_bool v)) ;;;
       save ;;;
       _write_json StatusOk OK)
      Exception
      (fun exc => _write_json (ErrorPayload (exc_message exc)) BAD_REQUEST)
  else _write_json NOT_FOUND_BODY NOT_FOUND.

(** ** The key check *)

(** One [requests.get(url, headers=..., timeout=...)]. *)
Record GetCall := {
  get_url : str;
  get_headers : list (str * str);
  get_timeout : Z
}.

(** The answer of the upstream API to a GET, or the exception it raises. *)
Variable requests_get : GetCall -> result Response.

Definition models_request (cfg : ServiceConfig) : GetCall :=
  {| get_url := OPENAI_API_BASE ++ lit "/models";
     get_headers :=
       [ (lit "Authorization", lit "Bearer " ++ format_opt (api_key cfg)) ]
       ++ (if falsy (organization cfg) then []
           else [(lit "OpenAI-Organization", format_opt (organization cfg))]);
     get_timeout := 30 |}.

Definition key_check_error (response : Response) : exn :=
  Exn RuntimeError
    (Text (ulit "Не удалось подтвердить ключ (status="
           ++ str_of_int (status_code response) ++ lit "): "
           ++ resp_text response)).

(** [GPTService.check_key]: the GET requests it made, and what it returns
    or raises. *)
Definition check_key (cfg : ServiceConfig) : list GetCall * result bool :=
  if falsy (api_key cfg) then ([], Ok false)
  else
    let call := models_request cfg in
    match requests_get call with
    | Raise e => ([call], Raise e)
    | Ok response =>
        ([call],
         if status_code response =? 200 then Ok true
         else Raise (key_check_error response))
    end.

(** ** Vocabulary of the properties *)

(** The value a header map gives for [name], the keys compared without
    regard to case; when several keys match, the value iterated last. *)
Fixpoint header_value (name : str) (headers : list (str * str)) : option str :=
  match headers with
  | [] => None
  | (key, value) :: rest =>
      match header_value name rest with
      | Some v => Some v
      | None => if str_eqb (lower key) name then Some value else None
      end
  end.

(** How many keys of the map match [name]. *)
Fixpoint header_count (name : str) (headers : list (str * str)) : nat :=
  match headers with
  | [] => O
  | (key, _) :: rest =>
      if str_eqb (lower key) name then S (header_count name rest)
      else header_count name rest
  end.

(** The headers [update_rate_limit] looks at. *)
Definition rate_limit_header (h : str * str) : bool :=
  str_eqb (lower (fst h)) REMAINING_REQUESTS
  || str_eqb (lower (fst h)) REMAINING_TOKENS
  || str_eqb (lower (fst h)) RESET_REQUESTS.

Definition parsed {A} (parse : str -> option A) (v : option str) : option A :=
  match v with
  | Some s => parse s
  | None => None
  end.

(** The time a reset header stands for, when the clock showed [now]. *)
Definition reset_at (now : float) (value : str) : option float :=
  option_map (PrimFloat.add now) (float_of_str value).

(** The snapshot of a header map: every field is read from the headers, and
    is unknown when its header is missing or does not parse. The clock is
    read once for each reset header, starting with reading [t]. *)
Definition snapshot_of (headers : list (str * str)) (m : json) (t : nat)
  : RateLimitInfo :=
  {| remaining_requests :=
       parsed py_int (header_value REMAINING_REQUESTS headers);
     remaining_tokens :=
       parsed py_int (header_value REMAINING_TOKENS headers);
     reset_timestamp :=
       parsed
         (reset_at
            (time_time (t + header_count RESET_REQUESTS headers - 1)%nat))
         (header_value RESET_REQUESTS headers);
     model := Some m |}.

(** The fields of the configuration after a patch [d] was applied. *)
Definition patched (d : dict) (cfg : ServiceConfig) : ServiceConfig :=
  {| api_key := api_key cfg;
     organization := organization cfg;
     default_model :=
       match dict_get d (lit "default_model") with
       | Some v => py_str v
       | None => default_model cfg
       end;
     profiles :=
       match dict_get d (lit "profiles") with
       | Some v => v
       | None => profiles cfg
       end;
     host := host cfg;
     port := port cfg;
     tls_enabled := tls_enabled cfg;
     consent_acknowledged :=
       match dict_get d (lit "consent_acknowledged") with
       | Some v => py_bool v
       | None => consent_acknowledged cfg
       end |}.

(** The bytes [_read_json] takes for the body of a request; [None] when the
    Content-Length header is no integer or the connection cannot be read
    for that length. *)
Definition request_body (req : Request) : option bytes :=
  match py_int (match content_length req with
                | Some v => v
                | None => lit "0"
                end) with
  | Some n =>
      if n =? 0 then Some (lit "{}")
      else match read (rfile req) n with
           | Ok data => Some data
           | Raise _ => None
           end
  | None => None
  end.

(** An error text that has a UTF-8 form. *)
Definition message_encodable (m : message) : bool :=
  match m with
  | Text s => encodable s
  | BuiltinText => true
  end.

(** What [_write_json] answers: the response, or the exception of a payload
    that cannot be written. *)
Definition written (payload : Payload) (status : Z) : result HttpResponse :=
  match dumps_error (payload_json payload) with
  | Some e => Raise e
  | None => Ok {| http_status := status; http_body := payload |}
  end.

(** Two headers with the same value whose names are the same, or are
    Latin-1 texts that differ in the case of the letters A to Z at most. *)
Definition case_variant (h h' : str * str) : Prop :=
  snd h = snd h'
  /\ (fst h = fst h'
      \/ (is_latin1 (fst h) = true /\ is_latin1 (fst h') = true
          /\ ascii_fold (fst h) = ascii_fold (fst h'))).

(** What a status request tells about readiness: the flag and the error. *)
Definition readiness (cfg : ServiceConfig) : bool * option message :=
  if falsy (api_key cfg) then
    (false, Some (exc_message API_KEY_NOT_CONFIGURED))
  else if negb (consent_acknowledged cfg) then
    (false, Some (exc_message CONSENT_NOT_ACKNOWLEDGED))
  else (true, None).

Definition status_body (w : World) : StatusBody :=
  {| st_ready := fst (readiness (config w));
     st_error := snd (readiness (config w));
     st_host := host (config w);
     st_port := port (config w);
     st_default_model := default_model (config w);
     st_profiles := profiles (config w);
     st_rate_limit := to_dict (rate_limit w) |}.

(** What the loop leaves in the local snapshot. *)
Definition scanned (headers : list (str * str)) (rl : RateLimitInfo) (t : nat)
  : RateLimitInfo :=
  {| remaining_requests :=
       match header_value REMAINING_REQUESTS headers with
       | Some v => py_int v
       | None => remaining_requests rl
       end;
     remaining_tokens :=
       match header_value REMAINING_TOKENS headers with
       | Some v => py_int v
       | None => remaining_tokens rl
       end;
     reset_timestamp :=
       match header_value RESET_REQUESTS headers with
       | Some v =>
           reset_at
             (time_time (t + header_count RESET_REQUESTS headers - 1)%nat) v
       | None => reset_timestamp rl
       end;
     model := model rl |}.

(** The model and the upstream call [call_openai] makes for a payload [d]. *)
Definition model_for (d : dict) (w : World) : json :=
  effective_model (dict_get d (lit "model")) (config w).

Definition call_for (d : dict) (w : World) : PostCall :=
  chat_completions (config w)
    (JDict (dict_setdefault d (lit "model") (model_for d w))).

(** The server, one request after another. *)
Definition handle (method : Method) (req : Request) : M HttpResponse :=
  match method with
  | GET => do_GET req
  | POST => do_POST req
  end.

(** The world after the requests were handled in turn. *)
Fixpoint serve (requests : list (Method * Request)) (w : World) : World :=
  match requests with
  | [] => w
  | (method, req) :: rest => serve rest (snd (handle method req w))
  end.

(** How many of the requests are a POST to [p]. *)
Fixpoint posts_to (p : str) (requests : list (Method * Request)) : nat :=
  match requests with
  | [] => O
  | (POST, req) :: rest =>
      if str_eqb (path req) p then S (posts_to p rest) else posts_to p rest
  | (GET, _) :: rest => posts_to p rest
  end.

(** A JSON value that is no container and no string. *)
Definition is_scalar_json (v : json) : bool :=
  match v with
  | JNull | JBool _ | JInt _ | JFloat _ => true
  | _ => false
  end.



(** [headers[name]] in a dict of headers the service built: the names are
    compared as they are written. *)
Fixpoint dict_get_header (headers : list (str * str)) (name : str)
  : option str :=
  match headers with
  | [] => None
  | (k, v) :: rest =>
      if str_eqb k name then Some v else dict_get_header rest name
  end.

(** The fields of the configuration that no handler assigns. *)
Definition fixed_fields (cfg : ServiceConfig)
  : option str * option str * str * Z * bool :=
  (api_key cfg, organization cfg, host cfg, port cfg, tls_enabled cfg).

(** [w'] differs from [w] in the patchable fields of the configuration at
    most. *)
Definition patch_only (w w' : World) : Prop :=
  fixed_fields (config w') = fixed_fields (config w)
  /\ rate_limit w' = rate_limit w
  /\ upstream_calls w' = upstream_calls w
  /\ clock_reads w' = clock_reads w
  /\ save_calls w' = save_calls w
  /\ config_file w' = config_file w.

(** * Properties *)

Set Default Proof Using "Type".

(** Linear arithmetic on a goal that mentions nothing of the environment. *)
Ltac pure_lia :=
  clear float_of_str py_repr json_loads int_unicode lower_unicode
    buffer_error time_time requests_post fs_open fs_write requests_get;
  lia.

(** ** The readiness gate *)

Lemma str_eqb_eq a b : str_eqb a b = true <-> a = b.
Proof.
  unfold str_eqb. destruct (str_eq_dec a b); split; congruence.
Qed.

Lemma str_eqb_neq a b : str_eqb a b = false <-> a <> b.
Proof.
  unfold str_eqb. destruct (str_eq_dec a b); split; congruence.
Qed.

Lemma str_eqb_refl a : str_eqb a a = true.
Proof. now apply str_eqb_eq. Qed.


(** What [ensure_ready] answers, by cases on the configuration. *)
Lemma ensure_ready_cases w :
  ensure_ready w =
  (if falsy (api_key (config w)) then Raise API_KEY_NOT_CONFIGURED
   else if negb (consent_acknowledged (config w))
        then Raise CONSENT_NOT_ACKNOWLEDGED
        else Ok tt, w).
Proof.
  unfold ensure_ready, bind, get_config, raise, ret.
  destruct (falsy (api_key (config w))); [reflexivity|].
  destruct (consent_acknowledged (config w)); reflexivity.
Qed.


(** ** The chat relay *)

(** C1. When the credential is absent or consent is not acknowledged,
    [call_openai] raises the error of the readiness gate and leaves the world
    as it was: no call reaches the upstream API and the rate-limit snapshot
    is the one from before. *)
Theorem call_openai_not_ready (payload : json) (w : World) :
  falsy (api_key (config w)) = true
  \/ consent_acknowledged (config w) = false ->
  exists e,
    call_openai payload w = (Raise e, w)
    /\ (e = API_KEY_NOT_CONFIGURED \/ e = CONSENT_NOT_ACKNOWLEDGED)
    /\ exc_type e = RuntimeError
    /\ upstream_calls (snd (call_openai payload w)) = upstream_calls w
    /\ rate_limit (snd (call_openai payload w)) = rate_limit w.
Proof.
  intros H.
  assert (exists e, ensure_ready w = (Raise e, w)
                    /\ (e = API_KEY_NOT_CONFIGURED
                        \/ e = CONSENT_NOT_ACKNOWLEDGED)) as (e & He & Hcase).
  { rewrite ensure_ready_cases.
    destruct (falsy (api_key (config w))).
    - eexists; split; [reflexivity | now left].
    - destruct H as [H|H]; [discriminate|]. rewrite H.
      eexists; split; [reflexivity | now right]. }
  assert (call_openai payload w = (Raise e, w)) as Hcall.
  { unfold call_openai. unfold bind at 1. now rewrite He. }
  exists e. rewrite Hcall. repeat split; trivial.
  destruct Hcase as [-> | ->]; reflexivity.
Qed.

(** ** The rate-limit snapshot *)

Lemma header_names_distinct :
  str_eqb REMAINING_REQUESTS REMAINING_TOKENS = false
  /\ str_eqb REMAINING_REQUESTS RESET_REQUESTS = false
  /\ str_eqb REMAINING_TOKENS RESET_REQUESTS = false
  /\ str_eqb REMAINING_TOKENS REMAINING_REQUESTS = false
  /\ str_eqb RESET_REQUESTS REMAINING_REQUESTS = false
  /\ str_eqb RESET_REQUESTS REMAINING_TOKENS = false.
Proof. repeat split; vm_compute; reflexivity. Qed.

(** [try: field = int(value) / except ValueError: field = None] *)
Lemma try_int value (set : option Z -> RateLimitInfo) w :
  try_except (n <- lift (int_ value) ;; ret (set (Some n)))
    (except ValueError) (fun _ => ret (set None)) w
  = (Ok (set (py_int value)), w).
Proof.
  unfold try_except, bind, lift, ret, int_, except.
  destruct (py_int value); reflexivity.
Qed.

(** [try: field = time.time() + float(value) / except ValueError: ...] *)
Lemma try_float value (set : option float -> RateLimitInfo) w :
  try_except
    (now <- the_clock ;;
     delta <- lift (float_ value) ;;
     ret (set (Some (PrimFloat.add now delta))))
    (except ValueError) (fun _ => ret (set None)) w
  = (Ok (set (reset_at (time_time (clock_reads w)) value)),
     with_clock_reads (S (clock_reads w)) w).
Proof.
  unfold try_except, bind, lift, ret, float_, except, the_clock, reset_at.
  destruct (float_of_str value); reflexivity.
Qed.

Lemma header_value_none_count name headers :
  header_value name headers = None -> header_count name headers = O.
Proof.
  induction headers as [|[k v] rest IH]; cbn [header_value header_count].
  - reflexivity.
  - destruct (header_value name rest); [discriminate|].
    destruct (str_eqb (lower k) name); [discriminate | auto].
Qed.

Lemma reading_index a c : (S a + c - 1)%nat = (a + c)%nat.
Proof. cbn. apply Nat.sub_0_r. Qed.

Lemma with_clock_reads_twice n m w :
  with_clock_reads n (with_clock_reads m w) = with_clock_reads n w.
Proof. reflexivity. Qed.

Lemma scan_headers_scanned headers :
  forall rl w,
    scan_headers headers rl w
    = (Ok (scanned headers rl (clock_reads w)),
       with_clock_reads
         (clock_reads w + header_count RESET_REQUESTS headers)%nat w).
Proof.
  destruct header_names_distinct as (D1 & D2 & D3 & D4 & D5 & D6).
  induction headers as [|[k v] rest IH]; intros rl w.
  - cbn [scan_headers]. unfold ret, scanned. cbn [header_value header_count].
    destruct rl, w. cbn. unfold with_clock_reads. cbn. now rewrite Nat.add_0_r.
  - cbn [scan_headers]. unfold bind at 1.
    destruct (str_eqb (lower k) REMAINING_REQUESTS) eqn:E1;
      [|destruct (str_eqb (lower k) REMAINING_TOKENS) eqn:E2;
        [|destruct (str_eqb (lower k) RESET_REQUESTS) eqn:E3]].
    + rewrite (try_int v (fun o => with_remaining_requests o rl)), IH.
      apply str_eqb_eq in E1.
      unfold scanned. cbn [header_value header_count].
      rewrite E1, D1, D2, str_eqb_refl.
      cbn [remaining_requests remaining_tokens reset_timestamp model
           with_remaining_requests].
      destruct (header_value REMAINING_REQUESTS rest),
        (header_value REMAINING_TOKENS rest),
        (header_value RESET_REQUESTS rest); reflexivity.
    + rewrite (try_int v (fun o => with_remaining_tokens o rl)), IH.
      apply str_eqb_eq in E2.
      unfold scanned. cbn [header_value header_count].
      rewrite E2, D3, D4, str_eqb_refl.
      cbn [remaining_requests remaining_tokens reset_timestamp model
           with_remaining_tokens].
      destruct (header_value REMAINING_REQUESTS rest),
        (header_value REMAINING_TOKENS rest),
        (header_value RESET_REQUESTS rest); reflexivity.
    + rewrite (try_float v (fun o => with_reset_timestamp o rl)), IH.
      apply str_eqb_eq in E3.
      unfold scanned. cbn [header_value header_count].
      rewrite E3, D5, D6, str_eqb_refl.
      cbn [remaining_requests remaining_tokens reset_timestamp model
           with_reset_timestamp clock_reads with_clock_reads].
      rewrite with_clock_reads_twice.
      rewrite <- Nat.add_succ_comm.
      destruct (header_value RESET_REQUESTS rest) eqn:Hv.
      * rewrite reading_index.
        destruct (header_value REMAINING_REQUESTS rest),
          (header_value REMAINING_TOKENS rest); reflexivity.
      * rewrite (header_value_none_count _ _ Hv), reading_index.
        rewrite !Nat.add_0_r.
        destruct (header_value REMAINING_REQUESTS rest),
          (header_value REMAINING_TOKENS rest); reflexivity.
    + unfold ret at 1. rewrite IH.
      unfold scanned. cbn [header_value header_count].
      rewrite E1, E2, E3.
      destruct (header_value REMAINING_REQUESTS rest),
        (header_value REMAINING_TOKENS rest),
        (header_value RESET_REQUESTS rest); reflexivity.
Qed.

Lemma update_rate_limit_snapshot headers m w :
  update_rate_limit headers m w
  = (Ok tt,
     with_rate_limit (snapshot_of headers m (clock_reads w))
       (with_clock_reads
          (clock_reads w + header_count RESET_REQUESTS headers)%nat w)).
Proof.
  unfold update_rate_limit, bind. rewrite scan_headers_scanned.
  unfold scanned, snapshot_of, parsed, RateLimitInfo_new.
  cbn [remaining_requests remaining_tokens reset_timestamp model].
  destruct (header_value REMAINING_REQUESTS headers),
    (header_value REMAINING_TOKENS headers),
    (header_value RESET_REQUESTS headers); reflexivity.
Qed.

(** *** Names that differ in case *)

Lemma lower_char_fold c : lower_char (ascii_fold_char c) = lower_char c.
Proof.
  unfold ascii_fold_char.
  destruct ((65 <=? c) && (c <=? 90)) eqn:E; [|reflexivity].
  unfold lower_char. rewrite E. cbn [orb].
  apply andb_true_iff in E. destruct E as [E1 E2].
  apply Z.leb_le in E1, E2.
  replace (c + 32 <=? 90) with false by (symmetry; apply Z.leb_gt; pure_lia).
  replace (192 <=? c + 32) with false
    by (symmetry; apply Z.leb_gt; pure_lia).
  now rewrite andb_false_r.
Qed.

Lemma lower_char_is_fold c n :
  is_ascii n = true -> lower_char c = n <-> ascii_fold_char c = n.
Proof.
  unfold is_ascii, lower_char, ascii_fold_char. intros Hn.
  apply andb_true_iff in Hn. destruct Hn as [Hn0 Hn1].
  apply Z.leb_le in Hn0. apply Z.ltb_lt in Hn1.
  destruct ((65 <=? c) && (c <=? 90)) eqn:E; cbn [orb]; [reflexivity|].
  destruct ((192 <=? c) && (c <=? 222) && negb (c =? 215)) eqn:F;
    [|reflexivity].
  apply andb_true_iff in F. destruct F as [F _].
  apply andb_true_iff in F. destruct F as [F _]. apply Z.leb_le in F.
  split; intros H; pure_lia.
Qed.

Lemma lower_latin1_fold k : lower_latin1 (ascii_fold k) = lower_latin1 k.
Proof.
  unfold lower_latin1, ascii_fold. rewrite map_map.
  apply map_ext. intros c. apply lower_char_fold.
Qed.

Lemma lower_latin1_is_fold k :
  forall name,
    forallb is_ascii name = true ->
    lower_latin1 k = name <-> ascii_fold k = name.
Proof.
  induction k as [|c k IH]; intros [|n name] Hname; cbn [lower_latin1
    ascii_fold map]; try (split; intros E; (reflexivity || discriminate E)).
  cbn [forallb] in Hname. apply andb_true_iff in Hname.
  destruct Hname as [Hn Hname].
  pose proof (lower_char_is_fold c n Hn) as Hc.
  pose proof (IH name Hname) as Hk. unfold lower_latin1, ascii_fold in Hk.
  split; intros E; injection E as E1 E2; f_equal;
    (apply Hc || apply Hk); assumption.
Qed.

(** A Latin-1 name matches an ASCII name exactly when it is that name up to
    the case of the letters A to Z. *)
Lemma lower_is_fold k name :
  is_latin1 k = true ->
  forallb is_ascii name = true ->
  str_eqb (lower k) name = true <-> ascii_fold k = name.
Proof.
  intros Hk Hname. unfold lower. rewrite Hk, str_eqb_eq.
  now apply lower_latin1_is_fold.
Qed.

Lemma lower_case_variant h h' :
  case_variant h h' -> lower (fst h) = lower (fst h') /\ snd h = snd h'.
Proof.
  intros [Hv [Hk | (L & L' & Hfold)]]; split; trivial.
  - now rewrite Hk.
  - unfold lower. rewrite L, L'.
    now rewrite <- (lower_latin1_fold (fst h)), Hfold, lower_latin1_fold.
Qed.

Lemma header_names_ascii :
  forallb is_ascii REMAINING_REQUESTS = true
  /\ forallb is_ascii REMAINING_TOKENS = true
  /\ forallb is_ascii RESET_REQUESTS = true.
Proof. repeat split; vm_compute; reflexivity. Qed.

Lemma header_value_case_variant name headers headers' :
  Forall2 case_variant headers headers' ->
  header_value name headers' = header_value name headers
  /\ header_count name headers' = header_count name headers.
Proof.
  induction 1 as [|[k v] [k' v'] rest rest' Hh _ [IHv IHc]].
  - split; reflexivity.
  - apply lower_case_variant in Hh. destruct Hh as [Hk Hv].
    cbn [fst snd] in Hk, Hv. subst v'.
    cbn [header_value header_count]. now rewrite IHv, IHc, Hk.
Qed.

Lemma header_value_filter name (keep : str * str -> bool) headers :
  (forall h, str_eqb (lower (fst h)) name = true -> keep h = true) ->
  header_value name (filter keep headers) = header_value name headers
  /\ header_count name (filter keep headers) = header_count name headers.
Proof.
  intros Hkeep.
  induction headers as [|[k v] rest [IHv IHc]]; [split; reflexivity|].
  cbn [filter]. destruct (keep (k, v)) eqn:K.
  - cbn [header_value header_count]. now rewrite IHv, IHc.
  - cbn [header_value header_count]. rewrite IHv, IHc.
    destruct (str_eqb (lower k) name) eqn:E.
    + apply (Hkeep (k, v)) in E. congruence.
    + split; [destruct (header_value name rest)|]; reflexivity.
Qed.

Lemma snapshot_of_ext headers headers' m t :
  (forall name,
      name = REMAINING_REQUESTS \/ name = REMAINING_TOKENS
      \/ name = RESET_REQUESTS ->
      header_value name headers' = header_value name headers
      /\ header_count name headers' = header_count name headers) ->
  snapshot_of headers' m t = snapshot_of headers m t.
Proof.
  intros H. unfold snapshot_of.
  destruct (H REMAINING_REQUESTS) as [-> _]; [now left|].
  destruct (H REMAINING_TOKENS) as [-> _]; [right; now left|].
  destruct (H RESET_REQUESTS) as [-> ->]; [right; now right|].
  reflexivity.
Qed.

(** What one header of a rate-limit name leaves in the snapshot. *)
Lemma snapshot_of_one k v m t :
  snapshot_of [(k, v)] m t
  = {| remaining_requests :=
         if str_eqb (lower k) REMAINING_REQUESTS then py_int v else None;
       remaining_tokens :=
         if str_eqb (lower k) REMAINING_TOKENS then py_int v else None;
       reset_timestamp :=
         if str_eqb (lower k) RESET_REQUESTS
         then reset_at (time_time t) v else None;
       model := Some m |}.
Proof.
  unfold snapshot_of. cbn [header_value header_count].
  destruct (str_eqb (lower k) REMAINING_REQUESTS),
    (str_eqb (lower k) REMAINING_TOKENS),
    (str_eqb (lower k) RESET_REQUESTS); cbn [parsed];
    rewrite ?Nat.add_sub; reflexivity.
Qed.

(** C10. [update_rate_limit] never raises, whatever the header map: it
    returns with the snapshot of the headers committed. A value of one of
    the three rate-limit headers that does not parse as a number leaves the
    field unknown. The names are matched without regard to case: two maps
    whose names differ in the case of the letters A to Z give the same
    snapshot, and a header whose name is a rate-limit name in any mix of
    upper and lower case sets the field of that name. Headers with other
    names change nothing: removing them gives the same snapshot, and a
    Latin-1 name counts as a rate-limit name only when it is one of the
    three up to the case of its letters. *)
Theorem update_rate_limit_total (headers : list (str * str)) (m : json)
  (w : World) :
  update_rate_limit headers m w
  = (Ok tt,
     with_rate_limit (snapshot_of headers m (clock_reads w))
       (with_clock_reads
          (clock_reads w + header_count RESET_REQUESTS headers)%nat w))
  /\ (forall v,
        header_value REMAINING_REQUESTS headers = Some v ->
        py_int v = None ->
        remaining_requests (rate_limit (snd (update_rate_limit headers m w)))
        = None)
  /\ (forall v,
        header_value REMAINING_TOKENS headers = Some v ->
        py_int v = None ->
        remaining_tokens (rate_limit (snd (update_rate_limit headers m w)))
        = None)
  /\ (forall v,
        header_value RESET_REQUESTS headers = Some v ->
        float_of_str v = None ->
        reset_timestamp (rate_limit (snd (update_rate_limit headers m w)))
        = None)
  /\ (forall headers',
        Forall2 case_variant headers headers' ->
        update_rate_limit headers' m w = update_rate_limit headers m w)
  /\ (forall k v,
        is_latin1 k = true ->
        let rl := rate_limit (snd (update_rate_limit [(k, v)] m w)) in
        (ascii_fold k = lit "x-ratelimit-remaining-requests" ->
         remaining_requests rl = py_int v)
        /\ (ascii_fold k = lit "x-ratelimit-remaining-tokens" ->
            remaining_tokens rl = py_int v)
        /\ (ascii_fold k = lit "x-ratelimit-reset-requests" ->
            reset_timestamp rl
            = option_map (PrimFloat.add (time_time (clock_reads w)))
                (float_of_str v)))
  /\ update_rate_limit (filter rate_limit_header headers) m w
     = update_rate_limit headers m w
  /\ (forall k v,
        is_latin1 k = true ->
        rate_limit_header (k, v) = true
        <-> ascii_fold k = lit "x-ratelimit-remaining-requests"
            \/ ascii_fold k = lit "x-ratelimit-remaining-tokens"
            \/ ascii_fold k = lit "x-ratelimit-reset-requests").
Proof.
  destruct header_names_ascii as (A1 & A2 & A3).
  split; [apply update_rate_limit_snapshot|].
  rewrite !update_rate_limit_snapshot.
  cbn [snd rate_limit with_rate_limit snapshot_of remaining_requests
       remaining_tokens reset_timestamp].
  split; [intros v -> E; exact E|].
  split; [intros v -> E; exact E|].
  split; [intros v -> E; cbn [parsed]; unfold reset_at; now rewrite E|].
  split.
  { intros headers' H. rewrite update_rate_limit_snapshot.
    destruct (header_value_case_variant RESET_REQUESTS _ _ H) as [_ ->].
    rewrite (snapshot_of_ext headers headers'); [reflexivity|].
    intros name _. now apply header_value_case_variant. }
  split.
  { intros k v Hk. cbv zeta. rewrite update_rate_limit_snapshot.
    cbn [snd rate_limit with_rate_limit]. rewrite snapshot_of_one.
    cbn [remaining_requests remaining_tokens reset_timestamp].
    split; [|split]; intros E.
    - apply (lower_is_fold k REMAINING_REQUESTS Hk A1) in E. now rewrite E.
    - apply (lower_is_fold k REMAINING_TOKENS Hk A2) in E. now rewrite E.
    - apply (lower_is_fold k RESET_REQUESTS Hk A3) in E. now rewrite E. }
  split.
  { destruct (header_value_filter RESET_REQUESTS rate_limit_header headers)
      as [_ ->].
    { intros h E. unfold rate_limit_header. rewrite E.
      now rewrite !orb_true_r. }
    rewrite (snapshot_of_ext headers (filter rate_limit_header headers));
      [reflexivity|].
    intros name Hname. apply header_value_filter.
    intros h E. unfold rate_limit_header.
    destruct Hname as [-> | [-> | ->]]; rewrite E;
      now rewrite ?orb_true_r. }
  intros k v Hk. unfold rate_limit_header. cbn [fst].
  rewrite !orb_true_iff.
  rewrite (lower_is_fold k REMAINING_REQUESTS Hk A1),
    (lower_is_fold k REMAINING_TOKENS Hk A2),
    (lower_is_fold k RESET_REQUESTS Hk A3).
  split; [intros [[H | H] | H] | intros [H | [H | H]]]; auto.
Qed.

(** [call_openai] once the gate is passed, by cases on the upstream answer. *)
Lemma call_openai_ready d w :
  falsy (api_key (config w)) = false ->
  consent_acknowledged (config w) = true ->
  call_openai (JDict d) w =
  let w1 := with_upstream_calls (upstream_calls w ++ [call_for d w]) w in
  match requests_post (List.length (upstream_calls w)) (call_for d w) with
  | Raise e => (Raise e, w1)
  | Ok response =>
      if 400 <=? status_code response
      then (Raise (openai_error response), w1)
      else
        (response_json response,
         with_rate_limit
           (snapshot_of (resp_headers response) (model_for d w)
              (clock_reads w))
           (with_clock_reads
              (clock_reads w
               + header_count RESET_REQUESTS (resp_headers response))%nat w1))
  end.
Proof.
  intros Hkey Hconsent.
  unfold call_openai. unfold bind at 1.
  rewrite ensure_ready_cases, Hkey, Hconsent. cbn [negb].
  unfold bind at 1. unfold get_config at 1.
  unfold bind at 1. unfold lift at 1. cbn [py_get].
  unfold bind at 1. unfold post at 1. cbn [py_setdefault].
  fold (model_for d w). fold (call_for d w).
  destruct (requests_post (List.length (upstream_calls w)) (call_for d w))
    as [response|e]; [|reflexivity].
  cbv zeta.
  destruct (400 <=? status_code response); [reflexivity|].
  unfold bind at 1. rewrite update_rate_limit_snapshot.
  unfold lift. reflexivity.
Qed.

(** C2, as the code has it. When the upstream API answers with a status of
    400 or more, [call_openai] raises a RuntimeError whose text is
    [OpenAI error <status>: <body text>], and the rate-limit snapshot stays
    as it was before the call: of the world, only the list of upstream calls
    has grown, by this one call. A 401 with the body [invalid key] gives the
    text [OpenAI error 401: invalid key]. *)
Theorem call_openai_upstream_error (d : dict) (w : World)
  (response : Response) :
  falsy (api_key (config w)) = false ->
  consent_acknowledged (config w) = true ->
  requests_post (List.length (upstream_calls w)) (call_for d w) = Ok response ->
  400 <= status_code response ->
  call_openai (JDict d) w
  = (Raise (openai_error response),
     with_upstream_calls (upstream_calls w ++ [call_for d w]) w)
  /\ rate_limit (snd (call_openai (JDict d) w)) = rate_limit w
  /\ exc_type (openai_error response) = RuntimeError
  /\ exc_message (openai_error response)
     = Text (lit "OpenAI error " ++ str_of_int (status_code response)
             ++ lit ": " ++ resp_text response)
  /\ (status_code response = 401 ->
      resp_text response = lit "invalid key" ->
      exc_message (openai_error response)
      = Text (lit "OpenAI error 401: invalid key")).
Proof.
  intros Hkey Hconsent Hpost Hstatus.
  rewrite (call_openai_ready d w Hkey Hconsent), Hpost. cbv zeta.
  apply Z.leb_le in Hstatus. rewrite Hstatus.
  repeat split.
  intros E1 E2. unfold openai_error. now rewrite E1, E2.
Qed.

(** ** Writing a response *)

Lemma _write_json_written payload status w :
  _write_json payload status w = (written payload status, w).
Proof.
  unfold _write_json, written, raise, ret.
  destruct (dumps_error (payload_json payload)); reflexivity.
Qed.

(** An error response is written unless its text has a lone surrogate. *)
Lemma written_error m status :
  written (ErrorPayload m) status
  = if message_encodable m
    then Ok {| http_status := status; http_body := ErrorPayload m |}
    else Raise unicode_encode_error.
Proof.
  unfold written, dumps_error. destruct m as [s|]; [|reflexivity].
  cbn [payload_json json_of_message json_forall forallb negb andb
       message_encodable].
  replace (encodable (lit "error")) with true by (vm_compute; reflexivity).
  cbn [andb]. rewrite andb_true_r.
  destruct (encodable s); reflexivity.
Qed.

Lemma written_status_ok :
  written StatusOk OK = Ok {| http_status := OK; http_body := StatusOk |}.
Proof. vm_compute. reflexivity. Qed.

Lemma written_not_found :
  written NOT_FOUND_BODY NOT_FOUND
  = Ok {| http_status := NOT_FOUND; http_body := NOT_FOUND_BODY |}.
Proof. vm_compute. reflexivity. Qed.

(** ** The status request *)

Lemma do_GET_status req w :
  path req = lit "/status" ->
  do_GET req w = (written (StatusPayload (status_body w)) OK, w).
Proof.
  intros Hpath. unfold do_GET. rewrite Hpath, str_eqb_refl.
  unfold bind, get_config, try_except, get_rate_limit, ret.
  rewrite ensure_ready_cases. unfold status_body, readiness.
  destruct (falsy (api_key (config w)));
    [|destruct (negb (consent_acknowledged (config w)))];
    cbn [except catches exc_type API_KEY_NOT_CONFIGURED
         CONSENT_NOT_ACKNOWLEDGED fst snd];
    rewrite _write_json_written; reflexivity.
Qed.

Lemma do_GET_other req w :
  path req <> lit "/status" ->
  do_GET req w
  = (Ok {| http_status := NOT_FOUND; http_body := NOT_FOUND_BODY |}, w).
Proof.
  intros Hpath. apply str_eqb_neq in Hpath. unfold do_GET. rewrite Hpath.
  now rewrite _write_json_written, written_not_found.
Qed.

Lemma do_GET_world req w : snd (do_GET req w) = w.
Proof.
  destruct (str_eqb (path req) (lit "/status")) eqn:Hpath.
  - apply str_eqb_eq in Hpath. now rewrite (do_GET_status req w Hpath).
  - apply str_eqb_neq in Hpath. now rewrite (do_GET_other req w Hpath).
Qed.


(** C9. The answer to a status request does not depend on the value of the
    credential: two configurations that differ only in a credential that is
    present (not empty) in both get the same response, for every request
    that [do_GET] serves. *)
Theorem status_hides_credential (req : Request) (w : World) (k1 k2 : str) :
  k1 <> [] ->
  k2 <> [] ->
  fst (do_GET req (with_config (with_api_key (Some k1) (config w)) w))
  = fst (do_GET req (with_config (with_api_key (Some k2) (config w)) w)).
Proof.
  intros H1 H2.
  destruct (str_eqb (path req) (lit "/status")) eqn:Hpath.
  - apply str_eqb_eq in Hpath. rewrite !do_GET_status by assumption.
    cbn [fst]. unfold status_body, readiness.
    cbn [config with_config api_key with_api_key falsy consent_acknowledged
         host port default_model profiles rate_limit].
    apply str_eqb_neq in H1, H2. now rewrite H1, H2.
  - apply str_eqb_neq in Hpath. now rewrite !do_GET_other by assumption.
Qed.

(** ** The configuration request *)

Lemma _read_json_cases req w :
  _read_json req w
  = (match py_int (match content_length req with
                   | Some v => v
                   | None => lit "0"
                   end) with
     | None => Raise (Exn ValueError BuiltinText)
     | Some n =>
         match (if n =? 0 then Ok (lit "{}") else read (rfile req) n) with
         | Raise e => Raise e
         | Ok data =>
             match Utf8.decode data with
             | None => Raise (Exn UnicodeDecodeError BuiltinText)
             | Some t =>
                 match json_loads t with
                 | inl v => Ok v
                 | inr JSONDecodeError => Raise INVALID_JSON
                 | inr cls => Raise (Exn cls BuiltinText)
                 end
             end
         end
     end, w).
Proof.
  unfold _read_json, bind, lift, try_except, raise, ret, int_, loads.
  destruct (py_int _) as [n|]; [|reflexivity].
  destruct (if n =? 0 then Ok (lit "{}") else read (rfile req) n)
    as [data|e]; [|reflexivity].
  destruct (Utf8.decode data) as [t|]; [|reflexivity].
  destruct (json_loads t) as [v|cls]; [reflexivity|].
  destruct cls; reflexivity.
Qed.

Lemma _read_json_world req w :
  _read_json req w = (fst (_read_json req w), w).
Proof. now rewrite _read_json_cases. Qed.

(** [_read_json] on the bytes it took for the body. *)
Lemma _read_json_body req w data :
  request_body req = Some data ->
  fst (_read_json req w)
  = match Utf8.decode data with
    | None => Raise (Exn UnicodeDecodeError BuiltinText)
    | Some t =>
        match json_loads t with
        | inl v => Ok v
        | inr JSONDecodeError => Raise INVALID_JSON
        | inr cls => Raise (Exn cls BuiltinText)
        end
    end.
Proof.
  rewrite _read_json_cases. unfold request_body. cbn [fst].
  destruct (py_int _) as [n|]; [|discriminate].
  destruct (n =? 0).
  - now intros [= <-].
  - destruct (read (rfile req) n) as [data'|e]; [|discriminate].
    now intros [= <-].
Qed.

Lemma _read_json_no_body req w :
  request_body req = None ->
  exists e, fst (_read_json req w) = Raise e /\ exc_message e = BuiltinText.
Proof.
  rewrite _read_json_cases. unfold request_body. cbn [fst].
  destruct (py_int _) as [n|]; [|intros _; now eexists].
  destruct (n =? 0); [discriminate|].
  unfold read.
  destruct (n <? -1); [intros _; now eexists|].
  destruct (n =? -1); [discriminate|].
  destruct (buffer_error n); [intros _; now eexists | discriminate].
Qed.

(** The errors of [_read_json]: an interpreter text, or the text of the
    service. *)
Lemma _read_json_raises req w e :
  fst (_read_json req w) = Raise e ->
  exc_message e = BuiltinText \/ e = INVALID_JSON.
Proof.
  destruct (request_body req) as [data|] eqn:Hbody.
  - rewrite (_read_json_body req w data Hbody).
    destruct (Utf8.decode data) as [t|]; [|intros [= <-]; now left].
    destruct (json_loads t) as [v|cls]; [discriminate|].
    destruct cls; intros [= <-]; (now left) || (now right).
  - destruct (_read_json_no_body req w Hbody) as (e' & -> & He').
    intros [= <-]. now left.
Qed.

Lemma written_read_error req w e status :
  fst (_read_json req w) = Raise e ->
  written (ErrorPayload (exc_message e)) status
  = Ok {| http_status := status; http_body := ErrorPayload (exc_message e) |}.
Proof.
  intros Hread. rewrite written_error.
  destruct (_read_json_raises req w e Hread) as [-> | ->]; reflexivity.
Qed.

Lemma patch_field_dict d key assign w :
  patch_field (JDict d) key assign w
  = (Ok tt,
     match dict_get d key with
     | Some v => with_config (assign v (config w)) w
     | None => w
     end).
Proof.
  unfold patch_field, bind, lift, py_contains, py_getitem, modify_config, ret.
  destruct (dict_get d key); reflexivity.
Qed.

Lemma patches_patched d w :
  (patch_field (JDict d) (lit "default_model")
     (fun v => with_default_model (py_str v)) ;;;
   patch_field (JDict d) (lit "profiles") (fun v => with_profiles v) ;;;
   patch_field (JDict d) (lit "consent_acknowledged")
     (fun v => with_consent (py_bool v))) w
  = (Ok tt, with_config (patched d (config w)) w).
Proof.
  unfold bind. rewrite !patch_field_dict. unfold patched.
  destruct (dict_get d (lit "default_model")),
    (dict_get d (lit "profiles")),
    (dict_get d (lit "consent_acknowledged"));
    destruct w as [[] ? ? ? ? ?]; reflexivity.
Qed.

Lemma save_world w :
  save_calls (snd (save w)) = S (save_calls w)
  /\ config (snd (save w)) = config w
  /\ rate_limit (snd (save w)) = rate_limit w
  /\ upstream_calls (snd (save w)) = upstream_calls w.
Proof.
  unfold save.
  destruct (fs_open (save_calls w)); [repeat split|].
  destruct (to_json (config w)) as [data|]; [|repeat split].
  destruct (dumps_error data); [repeat split|].
  destruct (fs_write (save_calls w)); repeat split.
Qed.

Lemma save_succeeds w data :
  fs_open (save_calls w) = None ->
  fs_write (save_calls w) = None ->
  to_json (config w) = Ok data ->
  dumps_error data = None ->
  fst (save w) = Ok tt /\ config_file (snd (save w)) = Stored data.
Proof.
  intros Ho Hw Hj Hd. unfold save. rewrite Ho, Hj, Hd, Hw. split; reflexivity.
Qed.

Lemma save_fails_on_open w e :
  fs_open (save_calls w) = Some e -> fst (save w) = Raise e.
Proof. intros Ho. unfold save. now rewrite Ho. Qed.

(** The configuration request on a body that is a JSON object. *)
Lemma do_POST_config_dict req d w :
  path req = lit "/config" ->
  fst (_read_json req w) = Ok (JDict d) ->
  do_POST req w
  = let saved := save (with_config (patched d (config w)) w) in
    (match fst saved with
     | Ok _ => Ok {| http_status := OK; http_body := StatusOk |}
     | Raise e => written (ErrorPayload (exc_message e)) BAD_REQUEST
     end, snd saved).
Proof.
  intros Hpath Hread. unfold do_POST. rewrite Hpath.
  change (str_eqb (lit "/config") (lit "/chat")) with false.
  change (str_eqb (lit "/config") (lit "/config")) with true.
  cbv iota. unfold try_except. unfold bind at 1.
  rewrite _read_json_world, Hread.
  pose proof (patches_patched d w) as P. unfold bind in P |- *.
  destruct (patch_field (JDict d) (lit "default_model") _ w) as [[[]|e1] w1];
    [|discriminate].
  destruct (patch_field (JDict d) (lit "profiles") _ w1) as [[[]|e2] w2];
    [|discriminate].
  rewrite P. cbv zeta.
  destruct (save (with_config (patched d (config w)) w)) as [[[]|e] w3];
    rewrite _write_json_written; cbn [fst snd];
    [now rewrite written_status_ok | reflexivity].
Qed.

Lemma patched_unknown_key key v d cfg :
  key <> lit "default_model" ->
  key <> lit "profiles" ->
  key <> lit "consent_acknowledged" ->
  patched ((key, v) :: d) cfg = patched d cfg.
Proof.
  intros H1 H2 H3. unfold patched. cbn [dict_get].
  apply str_eqb_neq in H1, H2, H3. now rewrite H1, H2, H3.
Qed.

(** C5. For a configuration request whose body is a JSON object [d], the
    handler sets each of [default_model], [profiles] and
    [consent_acknowledged] that [d] names ([default_model] through [str],
    the consent flag through [bool]) and leaves every other field of the
    configuration as it was, the credential, organization, host and port
    among them; keys it does not know change nothing and are no error; and
    [save] is called exactly once. When the file can be written, the
    request is answered with status 200 and the file holds the patched
    configuration. The patch that names only [default_model] changes only
    [default_model]. *)
Theorem config_patch_applies (req : Request) (d : dict) (w : World) :
  path req = lit "/config" ->
  fst (_read_json req w) = Ok (JDict d) ->
  let w' := snd (do_POST req w) in
  config w' = patched d (config w)
  /\ (api_key (config w') = api_key (config w)
      /\ organization (config w') = organization (config w)
      /\ host (config w') = host (config w)
      /\ port (config w') = port (config w)
      /\ tls_enabled (config w') = tls_enabled (config w))
  /\ (forall x, dict_get d (lit "default_model") = Some (JStr x) ->
        default_model (config w') = x)
  /\ (dict_get d (lit "default_model") = None ->
        default_model (config w') = default_model (config w))
  /\ (forall v, dict_get d (lit "profiles") = Some v ->
        profiles (config w') = v)
  /\ (dict_get d (lit "profiles") = None ->
        profiles (config w') = profiles (config w))
  /\ (forall b, dict_get d (lit "consent_acknowledged") = Some (JBool b) ->
        consent_acknowledged (config w') = b)
  /\ (dict_get d (lit "consent_acknowledged") = None ->
        consent_acknowledged (config w') = consent_acknowledged (config w))
  /\ (forall key v,
        key <> lit "default_model" ->
        key <> lit "profiles" ->
        key <> lit "consent_acknowledged" ->
        patched ((key, v) :: d) (config w) = patched d (config w))
  /\ save_calls w' = S (save_calls w)
  /\ (forall data,
        fs_open (save_calls w) = None ->
        fs_write (save_calls w) = None ->
        to_json (patched d (config w)) = Ok data ->
        dumps_error data = None ->
        fst (do_POST req w)
        = Ok {| http_status := 200; http_body := StatusOk |}
        /\ config_file w' = Stored data)
  /\ (forall x, d = [(lit "default_model", JStr x)] ->
        config w' = with_default_model x (config w)).
Proof.
  intros Hpath Hread w'.
  pose proof (do_POST_config_dict req d w Hpath Hread) as Hpost.
  cbv zeta in Hpost.
  destruct (save_world (with_config (patched d (config w)) w))
    as (Hcalls & Hcfg & _ & _).
  assert (config w' = patched d (config w)) as Hw'.
  { unfold w'. rewrite Hpost. cbn [snd]. exact Hcfg. }
  split; [exact Hw'|]. rewrite Hw'.
  split; [repeat split|].
  split; [intros x E; cbn [patched default_model]; now rewrite E|].
  split; [intros E; cbn [patched default_model]; now rewrite E|].
  split; [intros v E; cbn [patched profiles]; now rewrite E|].
  split; [intros E; cbn [patched profiles]; now rewrite E|].
  split; [intros b E; cbn [patched consent_acknowledged]; now rewrite E|].
  split; [intros E; cbn [patched consent_acknowledged]; now rewrite E|].
  split; [intros key v; apply patched_unknown_key|].
  split; [unfold w'; rewrite Hpost; cbn [snd]; exact Hcalls|].
  split.
  - intros data Ho Hw Hj Hd.
    destruct (save_succeeds (with_config (patched d (config w)) w) data)
      as [Hok Hfile]; trivial.
    unfold w'. rewrite Hpost. cbn [fst snd]. rewrite Hok. now split.
  - intros x ->. unfold patched, with_default_model. reflexivity.
Qed.

(** C7. When [save] fails in a configuration request, the caller is told
    of the failure and the configuration in memory holds the patch all the
    same: nothing is rolled back. The answer is status 400 with the text of
    the error; when that text has a lone surrogate and cannot be written,
    the handler raises and the caller gets no answer. *)
Theorem config_persist_failure (req : Request) (d : dict) (w : World)
  (e : exn) :
  path req = lit "/config" ->
  fst (_read_json req w) = Ok (JDict d) ->
  fst (save (with_config (patched d (config w)) w)) = Raise e ->
  let w' := snd (do_POST req w) in
  (message_encodable (exc_message e) = true ->
   fst (do_POST req w)
   = Ok {| http_status := 400; http_body := ErrorPayload (exc_message e) |})
  /\ (message_encodable (exc_message e) = false ->
      fst (do_POST req w) = Raise (Exn UnicodeEncodeError BuiltinText))
  /\ (forall r, fst (do_POST req w) = Ok r -> http_status r = 400)
  /\ config w' = patched d (config w)
  /\ (forall x, dict_get d (lit "default_model") = Some (JStr x) ->
        default_model (config w') = x)
  /\ (forall v, dict_get d (lit "profiles") = Some v ->
        profiles (config w') = v)
  /\ (forall b, dict_get d (lit "consent_acknowledged") = Some (JBool b) ->
        consent_acknowledged (config w') = b).
Proof.
  intros Hpath Hread Hsave w'.
  pose proof (do_POST_config_dict req d w Hpath Hread) as Hpost.
  cbv zeta in Hpost.
  destruct (save_world (with_config (patched d (config w)) w))
    as (_ & Hcfg & _ & _).
  assert (config w' = patched d (config w)) as Hw'.
  { unfold w'. rewrite Hpost. cbn [snd]. exact Hcfg. }
  assert (fst (do_POST req w)
          = written (ErrorPayload (exc_message e)) BAD_REQUEST) as Hfst.
  { rewrite Hpost. cbn [fst]. now rewrite Hsave. }
  rewrite Hfst, written_error.
  split; [now intros ->|].
  split; [now intros ->|].
  split.
  { destruct (message_encodable (exc_message e)); [|discriminate].
    now intros r [= <-]. }
  split; [exact Hw'|]. rewrite Hw'.
  split; [intros x E; cbn [patched default_model]; now rewrite E|].
  split; [intros v E; cbn [patched profiles]; now rewrite E|].
  intros b E. cbn [patched consent_acknowledged]. now rewrite E.
Qed.

Lemma do_POST_config_unread req w e :
  path req = lit "/config" ->
  fst (_read_json req w) = Raise e ->
  do_POST req w
  = (Ok {| http_status := BAD_REQUEST;
           http_body := ErrorPayload (exc_message e) |}, w).
Proof.
  intros Hpath Hread. unfold do_POST. rewrite Hpath.
  change (str_eqb (lit "/config") (lit "/chat")) with false.
  change (str_eqb (lit "/config") (lit "/config")) with true.
  cbv iota. unfold try_except. unfold bind at 1.
  rewrite _read_json_world, Hread. cbn [Exception].
  now rewrite _write_json_written, (written_read_error req w e _ Hread).
Qed.



(** * Further properties of the service *)

(** ** The chat request *)

(** [call_openai] on any payload, by cases. *)
Lemma call_openai_cases payload w :
  call_openai payload w =
  if falsy (api_key (config w)) then (Raise API_KEY_NOT_CONFIGURED, w)
  else if negb (consent_acknowledged (config w))
  then (Raise CONSENT_NOT_ACKNOWLEDGED, w)
  else
    match payload with
    | JDict d =>
        let w1 := with_upstream_calls (upstream_calls w ++ [call_for d w]) w in
        match requests_post (List.length (upstream_calls w)) (call_for d w)
        with
        | Raise e => (Raise e, w1)
        | Ok response =>
            if 400 <=? status_code response
            then (Raise (openai_error response), w1)
            else
              (response_json response,
               with_rate_limit
                 (snapshot_of (resp_headers response) (model_for d w)
                    (clock_reads w))
                 (with_clock_reads
                    (clock_reads w
                     + header_count RESET_REQUESTS (resp_headers response))%nat
                    w1))
        end
    | _ => (Raise (Exn AttributeError BuiltinText), w)
    end.
Proof.
  destruct (falsy (api_key (config w))) eqn:Hkey.
  - unfold call_openai. unfold bind at 1.
    now rewrite ensure_ready_cases, Hkey.
  - destruct (consent_acknowledged (config w)) eqn:Hconsent; cbn [negb].
    + destruct payload;
        try (unfold call_openai; unfold bind at 1;
             rewrite ensure_ready_cases, Hkey, Hconsent; reflexivity).
      now apply call_openai_ready.
    + unfold call_openai. unfold bind at 1.
      now rewrite ensure_ready_cases, Hkey, Hconsent.
Qed.

(** The chat request, by cases on the body and on the relay. *)
Lemma do_POST_chat req w :
  path req = lit "/chat" ->
  do_POST req w =
  match fst (_read_json req w) with
  | Raise e =>
      (written (ErrorPayload (exc_message e)) INTERNAL_SERVER_ERROR, w)
  | Ok payload =>
      match call_openai payload w with
      | (Ok v, w') =>
          (match written (ChatPayload v (to_dict (rate_limit w'))) OK with
           | Ok r => Ok r
           | Raise e =>
               written (ErrorPayload (exc_message e)) INTERNAL_SERVER_ERROR
           end, w')
      | (Raise e, w') =>
          (written (ErrorPayload (exc_message e)) INTERNAL_SERVER_ERROR, w')
      end
  end.
Proof.
  intros Hpath. unfold do_POST. rewrite Hpath, str_eqb_refl.
  unfold try_except. unfold bind at 1.
  pose proof (_read_json_world req w) as Hw.
  destruct (_read_json req w) as [r w0]. cbn [fst] in Hw |- *.
  injection Hw as ->.
  destruct r as [payload|e]; cbn [Exception];
    [|now rewrite _write_json_written].
  unfold bind at 1.
  destruct (call_openai payload w) as [[v|e] w'];
    [|now rewrite _write_json_written].
  unfold bind at 1. unfold get_rate_limit at 1.
  rewrite _write_json_written.
  change (to_dict _) with (to_dict (rate_limit w')).
  destruct (written (ChatPayload v (to_dict (rate_limit w'))) OK) as [r|e];
    [reflexivity | now rewrite _write_json_written].
Qed.



(** X2. A chat request that fails before the upstream call (the body
    cannot be read, the gate is closed, or the body is JSON that is no
    object) is answered with status 500 and an error text, and leaves the
    world as it was: nothing is sent upstream. *)
Theorem chat_rejected_before_upstream (req : Request) (w : World) :
  path req = lit "/chat" ->
  (exists e, fst (_read_json req w) = Raise e)
  \/ falsy (api_key (config w)) = true
  \/ consent_acknowledged (config w) = false
  \/ (exists v, fst (_read_json req w) = Ok v
                /\ forall d, v <> JDict d) ->
  exists text,
    do_POST req w
    = (Ok {| http_status := 500; http_body := ErrorPayload text |}, w).
Proof.
  intros Hpath Hcase. rewrite (do_POST_chat req w Hpath).
  assert (written (ErrorPayload (exc_message API_KEY_NOT_CONFIGURED))
            INTERNAL_SERVER_ERROR
          = Ok {| http_status := 500;
                  http_body :=
                    ErrorPayload (exc_message API_KEY_NOT_CONFIGURED) |})
    as Wkey by (vm_compute; reflexivity).
  assert (written (ErrorPayload (exc_message CONSENT_NOT_ACKNOWLEDGED))
            INTERNAL_SERVER_ERROR
          = Ok {| http_status := 500;
                  http_body :=
                    ErrorPayload (exc_message CONSENT_NOT_ACKNOWLEDGED) |})
    as Wconsent by (vm_compute; reflexivity).
  destruct (fst (_read_json req w)) as [payload|e] eqn:Hread.
  - rewrite call_openai_cases.
    destruct (falsy (api_key (config w)));
      [rewrite Wkey; now eexists|].
    destruct (consent_acknowledged (config w)); cbn [negb];
      [|rewrite Wconsent; now eexists].
    destruct Hcase as [[e He]|[Hk|[Hc|(v & Hv & Hnot)]]];
      try discriminate.
    injection Hv as <-.
    destruct payload; try (rewrite written_error; now eexists).
    now destruct (Hnot items).
  - rewrite (written_read_error req w e _ Hread). now eexists.
Qed.

(** X3. The snapshot is committed before the upstream body is parsed: when
    the upstream API answers with a status below 400 and a body on which
    [json.loads] raises, the chat request is answered with status 500 and
    the text of that error, and the snapshot has been replaced by the one
    of that answer all the same. *)
Theorem chat_commits_before_parsing (req : Request) (d : dict) (w : World)
  (response : Response) (cls : exn_class) :
  path req = lit "/chat" ->
  fst (_read_json req w) = Ok (JDict d) ->
  falsy (api_key (config w)) = false ->
  consent_acknowledged (config w) = true ->
  requests_post (List.length (upstream_calls w)) (call_for d w) = Ok response ->
  status_code response < 400 ->
  json_loads (resp_text response) = inr cls ->
  fst (do_POST req w)
  = Ok {| http_status := 500; http_body := ErrorPayload BuiltinText |}
  /\ rate_limit (snd (do_POST req w))
     = snapshot_of (resp_headers response) (model_for d w) (clock_reads w)
  /\ upstream_calls (snd (do_POST req w))
     = upstream_calls w ++ [call_for d w].
Proof.
  intros Hpath Hread Hkey Hconsent Hpost Hstatus Hjson.
  rewrite (do_POST_chat req w Hpath), Hread, call_openai_cases.
  rewrite Hkey, Hconsent, Hpost. cbn [negb]. cbv zeta.
  apply Z.leb_gt in Hstatus. rewrite Hstatus.
  unfold response_json, loads. rewrite Hjson.
  cbn [exc_message]. rewrite written_error. repeat split.
Qed.

(** X4. When the upstream call itself raises (no connection, timeout),
    [call_openai] raises that exception; the call is on record, and the
    snapshot, the clock and the configuration are as before. *)
Theorem call_openai_transport_error (d : dict) (w : World) (e : exn) :
  falsy (api_key (config w)) = false ->
  consent_acknowledged (config w) = true ->
  requests_post (List.length (upstream_calls w)) (call_for d w) = Raise e ->
  call_openai (JDict d) w
  = (Raise e, with_upstream_calls (upstream_calls w ++ [call_for d w]) w).
Proof.
  intros Hkey Hconsent Hpost.
  now rewrite call_openai_cases, Hkey, Hconsent, Hpost.
Qed.

(** X5. What [call_openai] sends. A payload without a [model] key is sent
    with the default model added at its end; a payload with a [model] key
    is sent as it is, also when the value is falsy (empty, null) and the
    snapshot is tagged with the default model instead. The call goes to the
    chat-completions URL with the credential as bearer token, and carries
    the organization header exactly when an organization is configured. *)
Theorem call_openai_outgoing_call (d : dict) (w : World) :
  falsy (api_key (config w)) = false ->
  consent_acknowledged (config w) = true ->
  let sent := call_for d w in
  upstream_calls (snd (call_openai (JDict d) w)) = upstream_calls w ++ [sent]
  /\ (dict_get d (lit "model") = None ->
      post_json sent
      = JDict (d ++ [(lit "model", JStr (default_model (config w)))]))
  /\ (forall v, dict_get d (lit "model") = Some v ->
      post_json sent = JDict d
      /\ (py_bool v = false ->
          model_for d w = JStr (default_model (config w))))
  /\ url sent = lit "https://api.openai.com/v1/chat/completions"
  /\ timeout sent = 90
  /\ (forall k, api_key (config w) = Some k ->
      dict_get_header (post_headers sent) (lit "Authorization")
      = Some (lit "Bearer " ++ k))
  /\ (dict_get_header (post_headers sent) (lit "OpenAI-Organization")
      = non_empty (organization (config w))).
Proof.
  intros Hkey Hconsent sent.
  split.
  { rewrite call_openai_cases, Hkey, Hconsent. cbn [negb]. cbv zeta.
    destruct (requests_post _ _) as [response|e]; [|reflexivity].
    destruct (400 <=? status_code response); reflexivity. }
  unfold sent, call_for, model_for, chat_completions, dict_setdefault.
  cbn [post_json url timeout post_headers].
  split; [now intros ->|].
  split.
  { intros v Hv. rewrite Hv. split; [reflexivity|].
    intros Hb. unfold effective_model. now rewrite Hb. }
  split; [reflexivity|]. split; [reflexivity|].
  split.
  - intros k Hk. rewrite Hk. reflexivity.
  - unfold non_empty.
    destruct (falsy (organization (config w))) eqn:Ho; [reflexivity|].
    destruct (organization (config w)); [reflexivity | discriminate].
Qed.


(** ** What the handlers leave alone *)



Lemma patch_only_refl w : patch_only w w.
Proof. repeat split. Qed.

Lemma patch_only_trans w1 w2 w3 :
  patch_only w1 w2 -> patch_only w2 w3 -> patch_only w1 w3.
Proof.
  intros (A1 & A2 & A3 & A4 & A5 & A6) (B1 & B2 & B3 & B4 & B5 & B6).
  repeat split; congruence.
Qed.

Lemma patch_field_patch_only payload key assign w :
  (forall v cfg, fixed_fields (assign v cfg) = fixed_fields cfg) ->
  patch_only w (snd (patch_field payload key assign w)).
Proof.
  intros Hassign.
  unfold patch_field, bind, lift, modify_config, ret.
  destruct (py_contains key payload) as [[|]|e];
    try apply patch_only_refl.
  destruct (py_getitem payload key) as [v|e]; [|apply patch_only_refl].
  cbn [snd]. repeat split. cbn [config with_config]. apply Hassign.
Qed.

(** The world after the three assignments of the configuration request. *)
Lemma patches_patch_only payload w :
  patch_only w
    (snd ((patch_field payload (lit "default_model")
             (fun v => with_default_model (py_str v)) ;;;
           patch_field payload (lit "profiles") (fun v => with_profiles v) ;;;
           patch_field payload (lit "consent_acknowledged")
             (fun v => with_consent (py_bool v))) w)).
Proof.
  unfold bind.
  pose proof (patch_field_patch_only payload (lit "default_model")
                (fun v => with_default_model (py_str v)) w
                (fun _ _ => eq_refl)) as P1.
  destruct (patch_field payload (lit "default_model") _ w) as [[[]|e1] w1];
    cbn [snd] in P1 |- *; [|exact P1].
  pose proof (patch_field_patch_only payload (lit "profiles")
                (fun v => with_profiles v) w1 (fun _ _ => eq_refl)) as P2.
  destruct (patch_field payload (lit "profiles") _ w1) as [[[]|e2] w2];
    cbn [snd] in P2 |- *;
    [|exact (patch_only_trans _ _ _ P1 P2)].
  pose proof (patch_field_patch_only payload (lit "consent_acknowledged")
                (fun v => with_consent (py_bool v)) w2
                (fun _ _ => eq_refl)) as P3.
  exact (patch_only_trans _ _ _ P1 (patch_only_trans _ _ _ P2 P3)).
Qed.

(** The configuration request on a body that was read: the assignments,
    then [save] when none of them raised. *)
Lemma do_POST_config_read req payload w :
  path req = lit "/config" ->
  fst (_read_json req w) = Ok payload ->
  exists w1,
    patch_only w w1
    /\ (snd (do_POST req w) = w1 \/ snd (do_POST req w) = snd (save w1)).
Proof.
  intros Hpath Hread. unfold do_POST. rewrite Hpath.
  change (str_eqb (lit "/config") (lit "/chat")) with false.
  change (str_eqb (lit "/config") (lit "/config")) with true.
  cbv iota. unfold try_except. unfold bind.
  rewrite _read_json_world, Hread.
  pose proof (patches_patch_only payload w) as P. unfold bind in P.
  destruct (patch_field payload (lit "default_model") _ w) as [[[]|e1] w1];
    cbn [snd] in P |- *;
    [|exists w1; split; [exact P | left; now rewrite _write_json_written]].
  destruct (patch_field payload (lit "profiles") _ w1) as [[[]|e2] w2];
    cbn [snd] in P |- *;
    [|exists w2; split; [exact P | left; now rewrite _write_json_written]].
  destruct (patch_field payload (lit "consent_acknowledged") _ w2)
    as [[[]|e3] w3];
    cbn [snd] in P |- *;
    [|exists w3; split; [exact P | left; now rewrite _write_json_written]].
  exists w3. split; [exact P|]. right.
  destruct (save w3) as [[[]|e] w4]; rewrite _write_json_written;
    [now rewrite written_status_ok | reflexivity].
Qed.

(** What one request may change. *)
Lemma handle_world method req w :
  let w' := snd (handle method req w) in
  fixed_fields (config w') = fixed_fields (config w)
  /\ (falsy (api_key (config w)) = true ->
      upstream_calls w' = upstream_calls w /\ rate_limit w' = rate_limit w)
  /\ (List.length (upstream_calls w')
      = (List.length (upstream_calls w)
         + (if match method with
               | POST => str_eqb (path req) (lit "/chat")
               | GET => false
               end then 1 else 0))%nat
      \/ upstream_calls w' = upstream_calls w)
  /\ (save_calls w'
      = (save_calls w
         + (if match method with
               | POST => str_eqb (path req) (lit "/config")
               | GET => false
               end then 1 else 0))%nat
      \/ save_calls w' = save_calls w).
Proof.
  cbv zeta.
  assert (forall w0 : World,
             w0 = w ->
             fixed_fields (config w0) = fixed_fields (config w)
             /\ (falsy (api_key (config w)) = true ->
                 upstream_calls w0 = upstream_calls w
                 /\ rate_limit w0 = rate_limit w)
             /\ (List.length (upstream_calls w0)
                 = (List.length (upstream_calls w)
                    + (if match method with
                          | POST => str_eqb (path req) (lit "/chat")
                          | GET => false
                          end then 1 else 0))%nat
                 \/ upstream_calls w0 = upstream_calls w)
             /\ (save_calls w0
                 = (save_calls w
                    + (if match method with
                          | POST => str_eqb (path req) (lit "/config")
                          | GET => false
                          end then 1 else 0))%nat
                 \/ save_calls w0 = save_calls w)) as Unchanged.
  { intros w0 ->. split; [reflexivity|]. split; [now split|].
    split; right; reflexivity. }
  destruct method; cbn [handle].
  - rewrite do_GET_world. now apply Unchanged.
  - destruct (str_eqb (path req) (lit "/chat")) eqn:Hchat.
    + apply str_eqb_eq in Hchat. rewrite (do_POST_chat req w Hchat).
      destruct (fst (_read_json req w)) as [payload|e];
        [|now apply Unchanged].
      rewrite call_openai_cases.
      destruct (falsy (api_key (config w))); [now apply Unchanged|].
      destruct (consent_acknowledged (config w)); cbn [negb];
        [|now apply Unchanged].
      destruct payload; try (now apply Unchanged).
      cbv zeta.
      assert (forall l (c : PostCall),
                 List.length (l ++ [c]) = (List.length l + 1)%nat) as Hlen
        by (intros; now rewrite length_app).
      destruct (requests_post _ _) as [response|e];
        [destruct (400 <=? status_code response);
         [|destruct (response_json response)]|];
        cbn [snd config with_rate_limit with_clock_reads with_upstream_calls
             upstream_calls save_calls];
        (split; [reflexivity|]); (split; [discriminate|]);
        (split; [left; apply Hlen | now right]).
    + destruct (str_eqb (path req) (lit "/config")) eqn:Hconfig.
      * apply str_eqb_eq in Hconfig.
        destruct (fst (_read_json req w)) as [payload|e] eqn:Hread.
        -- destruct (do_POST_config_read req payload w Hconfig Hread)
             as (w1 & (F1 & F2 & F3 & F4 & F5 & F6) & [-> | ->]).
           ++ split; [exact F1|]. split; [now split|].
              split; right; assumption.
           ++ destruct (save_world w1) as (S1 & S2 & S3 & S4).
              rewrite S1, S2, S3, S4, F1, F2, F3, F5.
              split; [reflexivity|]. split; [now split|].
              split; [now right|]. left. now rewrite Nat.add_1_r.
        -- rewrite (do_POST_config_unread req w e Hconfig Hread).
           now apply Unchanged.
      * unfold do_POST. rewrite Hchat, Hconfig, _write_json_written.
        now apply Unchanged.
Qed.

Lemma fixed_fields_api_key cfg cfg' :
  fixed_fields cfg' = fixed_fields cfg -> api_key cfg' = api_key cfg.
Proof. unfold fixed_fields. now intros [= -> _ _ _ _]. Qed.

(** X7. No sequence of HTTP requests changes the credential, the
    organization, the host, the port or the TLS flag of the configuration. *)
Theorem serve_keeps_credential (requests : list (Method * Request))
  (w : World) :
  api_key (config (serve requests w)) = api_key (config w)
  /\ organization (config (serve requests w)) = organization (config w)
  /\ host (config (serve requests w)) = host (config w)
  /\ port (config (serve requests w)) = port (config w)
  /\ tls_enabled (config (serve requests w)) = tls_enabled (config w).
Proof.
  assert (fixed_fields (config (serve requests w)) = fixed_fields (config w))
    as H.
  { revert w. induction requests as [|[method req] rest IH]; intros w.
    - reflexivity.
    - cbn [serve]. rewrite IH.
      now destruct (handle_world method req w) as (F & _). }
  unfold fixed_fields in H. injection H as -> -> -> -> ->. repeat split.
Qed.

(** X8. A service without a credential never calls the upstream API:
    whatever requests it handles, the list of upstream calls and the
    rate-limit snapshot stay as they were. *)
Theorem serve_without_credential (requests : list (Method * Request))
  (w : World) :
  falsy (api_key (config w)) = true ->
  upstream_calls (serve requests w) = upstream_calls w
  /\ rate_limit (serve requests w) = rate_limit w.
Proof.
  revert w. induction requests as [|[method req] rest IH]; intros w Hkey.
  - split; reflexivity.
  - cbn [serve].
    destruct (handle_world method req w) as (F & N & _).
    destruct (N Hkey) as [N1 N2].
    destruct (IH (snd (handle method req w))) as [I1 I2].
    { now rewrite (fixed_fields_api_key _ _ F). }
    split; congruence.
Qed.

Lemma bound_step (a b c k i : nat) :
  (a <= b + k -> b = c + i \/ b = c -> a <= c + (i + k))%nat.
Proof.
  pure_lia.
Qed.

(** X9. The requests bound the effects: a sequence of requests makes at
    most one upstream call for each POST to [/chat] and calls [save] at
    most once for each POST to [/config]. *)
Theorem serve_effect_bounds (requests : list (Method * Request)) (w : World) :
  (List.length (upstream_calls (serve requests w))
   <= List.length (upstream_calls w) + posts_to (lit "/chat") requests)%nat
  /\ (save_calls (serve requests w)
      <= save_calls w + posts_to (lit "/config") requests)%nat.
Proof.
  revert w. induction requests as [|[method req] rest IH]; intros w.
  - cbn [serve posts_to]. rewrite !Nat.add_0_r. split; apply Nat.le_refl.
  - cbn [serve].
    destruct (handle_world method req w) as (_ & _ & U & S).
    destruct (IH (snd (handle method req w))) as [IU IS].
    split.
    + destruct U as [U|U].
      * replace (posts_to (lit "/chat") ((method, req) :: rest))
          with ((if match method with
                     | POST => str_eqb (path req) (lit "/chat")
                     | GET => false
                     end then 1 else 0)
                + posts_to (lit "/chat") rest)%nat
          by (destruct method; cbn [posts_to];
              [|destruct (str_eqb (path req) (lit "/chat"))]; reflexivity).
        eapply bound_step; [exact IU | left; exact U].
      * rewrite U in IU.
        apply (Nat.le_trans _ _ _ IU). apply Nat.add_le_mono_l.
        destruct method; cbn [posts_to]; [apply Nat.le_refl|].
        destruct (str_eqb (path req) (lit "/chat"));
          [apply Nat.le_succ_diag_r | apply Nat.le_refl].
    + destruct S as [S|S].
      * replace (posts_to (lit "/config") ((method, req) :: rest))
          with ((if match method with
                     | POST => str_eqb (path req) (lit "/config")
                     | GET => false
                     end then 1 else 0)
                + posts_to (lit "/config") rest)%nat
          by (destruct method; cbn [posts_to];
              [|destruct (str_eqb (path req) (lit "/config"))]; reflexivity).
        eapply bound_step; [exact IS | left; exact S].
      * rewrite S in IS.
        apply (Nat.le_trans _ _ _ IS). apply Nat.add_le_mono_l.
        destruct method; cbn [posts_to]; [apply Nat.le_refl|].
        destruct (str_eqb (path req) (lit "/config"));
          [apply Nat.le_succ_diag_r | apply Nat.le_refl].
Qed.


(** ** More on the configuration request *)


(** X11. A configuration request whose body is JSON but a number, a
    boolean or null is answered with status 400; nothing is assigned and
    [save] is not called. *)
Theorem config_scalar_body_rejected (req : Request) (v : json) (w : World) :
  path req = lit "/config" ->
  fst (_read_json req w) = Ok v ->
  is_scalar_json v = true ->
  do_POST req w
  = (Ok {| http_status := 400; http_body := ErrorPayload BuiltinText |}, w).
Proof.
  intros Hpath Hread Hscalar. unfold do_POST. rewrite Hpath.
  change (str_eqb (lit "/config") (lit "/chat")) with false.
  change (str_eqb (lit "/config") (lit "/config")) with true.
  cbv iota. unfold try_except. unfold bind at 1.
  rewrite _read_json_world, Hread.
  unfold bind at 1. unfold patch_field at 1. unfold bind at 1, lift at 1.
  destruct v; try discriminate; cbn [py_contains Exception exc_message];
    now rewrite _write_json_written, written_error.
Qed.



(** ** The body of a request *)

Lemma firstn_app_within {A} (n : nat) (l extra : list A) :
  (n <= List.length l)%nat -> firstn n (l ++ extra) = firstn n l.
Proof.
  intros H. rewrite firstn_app.
  replace (n - List.length l)%nat with O
    by (symmetry; now apply Nat.sub_0_le).
  cbn [firstn]. apply app_nil_r.
Qed.

(** X13. [_read_json] reads the Content-Length bytes and no more: bytes
    that follow on the connection do not change what it returns; and when
    the header is missing or zero the connection is not read at all, the
    body being taken for an empty object. *)
Theorem read_json_content_length (req : Request) (w : World) :
  (forall n extra,
      py_int (match content_length req with
              | Some v => v
              | None => lit "0"
              end) = Some n ->
      0 <= n <= Z.of_nat (List.length (rfile req)) ->
      _read_json {| path := path req; content_length := content_length req;
                    rfile := rfile req ++ extra |} w
      = _read_json req w)
  /\ (content_length req = None
      \/ (exists v, content_length req = Some v /\ py_int v = Some 0) ->
      _read_json req w
      = _read_json {| path := path req; content_length := content_length req;
                      rfile := [] |} w
      /\ request_body req = Some (lit "{}")).
Proof.
  split.
  - intros n extra Hn Hrange.
    rewrite !_read_json_cases.
    cbn [content_length rfile]. rewrite Hn.
    destruct (n =? 0); [reflexivity|].
    destruct Hrange as [Hge Hle].
    unfold read.
    replace (n <? -1) with false
      by (symmetry; apply Z.ltb_ge;
          apply (Z.le_trans _ 0); [discriminate | exact Hge]).
    replace (n =? -1) with false
      by (symmetry; apply Z.eqb_neq; intros ->; now apply Hge).
    destruct (buffer_error n); [reflexivity|].
    rewrite firstn_app_within; [reflexivity|].
    apply Nat2Z.inj_le. now rewrite Z2Nat.id.
  - intros Hzero.
    assert (py_int (match content_length req with
                    | Some v => v
                    | None => lit "0"
                    end) = Some 0) as H0.
    { destruct Hzero as [-> | (v & -> & Hv)]; [reflexivity | exact Hv]. }
    rewrite !_read_json_cases. unfold request_body.
    cbn [content_length rfile]. rewrite H0. split; reflexivity.
Qed.

(** A Content-Length below -1 is refused by the connection, and -1 reads
    the connection to its end. *)
Lemma read_negative r n :
  (n < -1 -> read r n = Raise (Exn ValueError BuiltinText))
  /\ (n = -1 -> read r n = Ok r).
Proof.
  unfold read. split.
  - intros H. apply Z.ltb_lt in H. now rewrite H.
  - now intros ->.
Qed.

(** ** The key check *)

(** X17. [check_key] answers [False] exactly when no credential is
    configured, and then makes no request. Otherwise it makes one GET to
    [https://api.openai.com/v1/models] with a timeout of 30 seconds, the
    credential as bearer token and the organization header exactly when an
    organization is configured; it answers [True] exactly when the status
    is 200; every other status, those of the 2xx range included, raises a
    RuntimeError whose text is [Не удалось подтвердить ключ
    (status=<status>): <body text>]; and an exception of the request itself
    is passed on. The consent flag plays no part. *)
Theorem check_key_outcome (cfg : ServiceConfig) :
  (snd (check_key cfg) = Ok false <-> falsy (api_key cfg) = true)
  /\ (falsy (api_key cfg) = true -> fst (check_key cfg) = [])
  /\ (forall k,
        api_key cfg = Some k ->
        k <> [] ->
        let call :=
          {| get_url := lit "https://api.openai.com/v1/models";
             get_headers :=
               (lit "Authorization", lit "Bearer " ++ k)
               :: match non_empty (organization cfg) with
                  | Some o => [(lit "OpenAI-Organization", o)]
                  | None => []
                  end;
             get_timeout := 30 |} in
        fst (check_key cfg) = [call]
        /\ (forall response,
              requests_get call = Ok response ->
              (snd (check_key cfg) = Ok true <-> status_code response = 200)
              /\ (status_code response <> 200 ->
                  snd (check_key cfg)
                  = Raise
                      (Exn RuntimeError
                         (Text (ulit "Не удалось подтвердить ключ (status="
                                ++ str_of_int (status_code response)
                                ++ lit "): " ++ resp_text response)))))
        /\ (forall e,
              requests_get call = Raise e -> snd (check_key cfg) = Raise e))
  /\ (forall b, check_key (with_consent b cfg) = check_key cfg).
Proof.
  split; [|split; [|split]].
  - unfold check_key. destruct (falsy (api_key cfg)); [now split|].
    cbv zeta. destruct (requests_get (models_request cfg)) as [r|e];
      [destruct (status_code r =? 200)|]; cbn [snd];
      split; intros H; discriminate.
  - unfold check_key. now intros ->.
  - intros k Hk Hne call.
    assert (falsy (api_key cfg) = false) as Hkey.
    { rewrite Hk. cbn [falsy]. now apply str_eqb_neq. }
    assert (models_request cfg = call) as Hcall.
    { unfold models_request, call, non_empty. rewrite Hk.
      cbn [format_opt]. f_equal.
      destruct (organization cfg) as [o|]; cbn [falsy format_opt];
        [destruct (str_eqb o [])|]; reflexivity. }
    unfold check_key. rewrite Hkey, Hcall. cbv zeta.
    split; [now destruct (requests_get call)|].
    split.
    + intros response ->. cbn [snd].
      destruct (Z.eqb_spec (status_code response) 200) as [E|E].
      * split; [now split | contradiction].
      * split; [split; [discriminate | contradiction] | reflexivity].
    + now intros e ->.
  - intros b. reflexivity.
Qed.


(** X18. The values of a patch are converted, not checked: the consent
    flag becomes the truth value of what the patch holds, so that every
    non-empty string sets it, the string [false] too; and the default model
    becomes the text of what the patch holds, [None] for null and the
    decimal numeral for an integer. *)
Theorem config_converts_values (req : Request) (d : dict) (w : World) :
  path req = lit "/config" ->
  fst (_read_json req w) = Ok (JDict d) ->
  let w' := snd (do_POST req w) in
  (forall v, dict_get d (lit "consent_acknowledged") = Some v ->
     consent_acknowledged (config w') = py_bool v)
  /\ (forall s, dict_get d (lit "consent_acknowledged") = Some (JStr s) ->
        s <> [] -> consent_acknowledged (config w') = true)
  /\ (forall v, dict_get d (lit "default_model") = Some v ->
        default_model (config w') = py_str v)
  /\ (dict_get d (lit "default_model") = Some JNull ->
        default_model (config w') = lit "None")
  /\ (forall n, dict_get d (lit "default_model") = Some (JInt n) ->
        default_model (config w') = str_of_int n).
Proof.
  intros Hpath Hread w'.
  pose proof (do_POST_config_dict req d w Hpath Hread) as Hpost.
  cbv zeta in Hpost.
  destruct (save_world (with_config (patched d (config w)) w))
    as (_ & Hcfg & _ & _).
  assert (config w' = patched d (config w)) as Hw'.
  { unfold w'. rewrite Hpost. cbn [snd]. exact Hcfg. }
  rewrite Hw'. cbn [patched consent_acknowledged default_model].
  split; [now intros v ->|].
  split.
  { intros s -> Hs. cbn [py_bool]. apply str_eqb_neq in Hs. now rewrite Hs. }
  split; [now intros v ->|].
  split; [now intros ->|].
  now intros n ->.
Qed.

End Service.

(** ** The models of the interpreter on sample values *)

Example ulit_cyrillic : ulit "да" = [1076; 1072].
Proof. reflexivity. Qed.

Example b64_man : Base64.b64encode (lit "Man") = lit "TWFu".
Proof. reflexivity. Qed.

Example b64_ma : Base64.b64decode (lit "TWE=") = Some (lit "Ma").
Proof. reflexivity. Qed.

Example str_of_int_401 : str_of_int 401 = lit "401".
Proof. reflexivity. Qed.

Example py_int_42 : py_int Sample.int_unicode (lit " +4_2 ") = Some 42.
Proof. reflexivity. Qed.

Example py_int_bad :
  py_int Sample.int_unicode (lit "4__2") = None
  /\ py_int Sample.int_unicode (lit "1.5") = None.
Proof. split; reflexivity. Qed.

Example lower_mixed_case :
  lower Sample.lower_unicode (lit "X-RateLimit-Remaining-Requests")
  = lit "x-ratelimit-remaining-requests".
Proof. reflexivity. Qed.

Example digit_limit : DIGIT_LIMIT = 10 ^ 4300.
Proof. vm_compute. reflexivity. Qed.

Example dumps_error_surrogate :
  dumps_error (JDict [(lit "default_model", JStr [0xD800])])
  = Some (Exn UnicodeEncodeError BuiltinText)
  /\ dumps_error (JDict [(lit "port", JInt DIGIT_LIMIT)])
     = Some (Exn ValueError BuiltinText)
  /\ dumps_error (JDict [(lit "port", JInt (DIGIT_LIMIT - 1))]) = None.
Proof.
  split; [vm_compute; reflexivity|].
  split; vm_compute; reflexivity.
Qed.

Example secret_roundtrip_sk :
  _encode_secret (Some (ulit "sk-ключ")) = Ok (Some (lit "c2st0LrQu9GO0Yc="))
  /\ _decode_secret (Some (lit "c2st0LrQu9GO0Yc=")) = Some (ulit "sk-ключ").
Proof. split; reflexivity. Qed.

(** ** Arithmetic of the codecs *)

Lemma a2b_b2a i : 0 <= i < 64 -> Base64.a2b (Base64.b2a i) = Some i.
Proof.
  intros Hi. unfold Base64.b2a.
  destruct (Z.ltb_spec i 26);
    [|destruct (Z.ltb_spec i 52);
      [|destruct (Z.ltb_spec i 62); [|destruct (Z.eqb_spec i 62)]]];
    unfold Base64.a2b; split_tests; cbn [andb];
    try (f_equal; lia); try lia.
Qed.

Lemma b2a_range i :
  0 <= i < 64 -> 0 <= Base64.b2a i < 128 /\ Base64.b2a i <> Base64.PAD.
Proof.
  intros Hi. unfold Base64.b2a, Base64.PAD. split_tests; lia.
Qed.

Lemma a2b_base64_data i rest q l p :
  0 <= i < 64 ->
  Base64.a2b_base64 (Base64.b2a i :: rest) q l p =
  if q =? 0 then Base64.a2b_base64 rest 1 i 0
  else if q =? 1 then
    Base64.emit (l * 4 + i / 16) (Base64.a2b_base64 rest 2 (i mod 16) 0)
  else if q =? 2 then
    Base64.emit (l * 16 + i / 4) (Base64.a2b_base64 rest 3 (i mod 4) 0)
  else Base64.emit (l * 64 + i) (Base64.a2b_base64 rest 0 0 0).
Proof.
  intros Hi. cbn [Base64.a2b_base64].
  destruct (b2a_range i Hi) as [_ Hpad].
  destruct (Z.eqb_spec (Base64.b2a i) Base64.PAD) as [E|_]; [contradiction|].
  now rewrite (a2b_b2a i Hi).
Qed.

Lemma a2b_base64_quad a b c rest :
  is_byte a -> is_byte b -> is_byte c ->
  Base64.a2b_base64
    (Base64.b2a (a / 4) :: Base64.b2a ((a mod 4) * 16 + b / 16)
     :: Base64.b2a ((b mod 16) * 4 + c / 64) :: Base64.b2a (c mod 64) :: rest)
    0 0 0
  = Base64.emit a (Base64.emit b (Base64.emit c (Base64.a2b_base64 rest 0 0 0))).
Proof.
  unfold is_byte. intros Ha Hb Hc.
  rewrite !a2b_base64_data by zsolve. cbn [Z.eqb Pos.eqb].
  f_equal; [zsolve|]. 
  replace (((a mod 4) * 16 + b / 16) mod 16) with (b / 16) by zsolve.
  f_equal; [zsolve|].
  replace (((b mod 16) * 4 + c / 64) mod 4) with (c / 64) by zsolve.
  f_equal. zsolve.
Qed.

Lemma a2b_base64_last1 a :
  is_byte a ->
  Base64.a2b_base64
    [Base64.b2a (a / 4); Base64.b2a ((a mod 4) * 16); Base64.PAD; Base64.PAD]
    0 0 0 = Some [a].
Proof.
  unfold is_byte. intros Ha.
  rewrite !a2b_base64_data by zsolve. cbn.
  f_equal. f_equal. zsolve.
Qed.

Lemma a2b_base64_last2 a b :
  is_byte a -> is_byte b ->
  Base64.a2b_base64
    [Base64.b2a (a / 4); Base64.b2a ((a mod 4) * 16 + b / 16);
     Base64.b2a ((b mod 16) * 4); Base64.PAD]
    0 0 0 = Some [a; b].
Proof.
  unfold is_byte. intros Ha Hb.
  rewrite !a2b_base64_data by zsolve. cbn.
  replace (((a mod 4) * 16 + b / 16) mod 16) with (b / 16) by zsolve.
  f_equal. f_equal; [zsolve|]. f_equal. zsolve.
Qed.

(* induction three elements at a time *)
Lemma list_ind3 {A} (P : list A -> Prop) :
  P [] -> (forall a, P [a]) -> (forall a b, P [a; b]) ->
  (forall a b c r, P r -> P (a :: b :: c :: r)) ->
  forall l, P l.
Proof.
  intros H0 H1 H2 H3.
  fix IH 1.
  intros [|a [|b [|c r]]];
    [apply H0 | apply H1 | apply H2 | apply H3, IH].
Qed.

Lemma b64decode_b64encode bs :
  Forall is_byte bs -> Base64.b64decode (Base64.b64encode bs) = Some bs.
Proof.
  unfold Base64.b64decode.
  induction bs as [|a|a b|a b c r IH] using list_ind3; intros H.
  - reflexivity.
  - inversion_clear H. now apply a2b_base64_last1.
  - inversion_clear H as [|? ? ? H']. inversion_clear H'.
    now apply a2b_base64_last2.
  - inversion_clear H as [|? ? ? H']. inversion_clear H' as [|? ? ? H''].
    inversion_clear H''.
    cbn [Base64.b64encode]. rewrite a2b_base64_quad by assumption.
    now rewrite IH.
Qed.

Lemma is_ascii_b2a i : 0 <= i < 64 -> is_ascii (Base64.b2a i) = true.
Proof.
  intros Hi. destruct (b2a_range i Hi) as [R _]. unfold is_ascii.
  apply andb_true_intro. split; [apply Z.leb_le | apply Z.ltb_lt]; lia.
Qed.

Lemma b64encode_ascii bs :
  Forall is_byte bs -> forallb is_ascii (Base64.b64encode bs) = true.
Proof.
  unfold is_byte.
  induction bs as [|a|a b|a b c r IH] using list_ind3; intros H.
  - reflexivity.
  - inversion_clear H. cbn [Base64.b64encode forallb].
    rewrite !is_ascii_b2a by zsolve. reflexivity.
  - inversion_clear H as [|? ? ? H']. inversion_clear H'.
    cbn [Base64.b64encode forallb].
    rewrite !is_ascii_b2a by zsolve. reflexivity.
  - inversion_clear H as [|? ? ? H']. inversion_clear H' as [|? ? ? H''].
    inversion_clear H''.
    cbn [Base64.b64encode forallb].
    rewrite !is_ascii_b2a by zsolve. now rewrite IH.
Qed.

Lemma b64encode_longer bs :
  bs <> [] -> (List.length bs < List.length (Base64.b64encode bs))%nat.
Proof.
  induction bs as [|a|a b|a b c r IH] using list_ind3; intros H.
  - congruence.
  - cbn. lia.
  - cbn. lia.
  - cbn [Base64.b64encode List.length].
    destruct r as [|d r'].
    + cbn. lia.
    + assert (d :: r' <> []) as Hr by discriminate.
      specialize (IH Hr). lia.
Qed.

(** The UTF-8 form of a scalar value decodes to it. *)

Lemma Some_inj {A} (a b : A) : Some a = Some b -> a = b.
Proof. now intros [= ->]. Qed.

Lemma is_scalar_range c :
  Utf8.is_scalar c = true ->
  0 <= c < 0x110000 /\ ~ (0xD800 <= c <= 0xDFFF).
Proof.
  unfold Utf8.is_scalar, Utf8.is_surrogate.
  split_tests; cbn; intros; try discriminate; lia.
Qed.

Lemma encode_char_bytes c b :
  Utf8.encode_char c = Some b -> Forall is_byte b /\ (1 <= List.length b)%nat.
Proof.
  unfold Utf8.encode_char, is_byte.
  destruct (Utf8.is_scalar c) eqn:S; cbn [negb]; [|discriminate].
  apply is_scalar_range in S.
  split_tests; intros E; apply Some_inj in E; subst b; (split; [repeat (apply Forall_cons; [zsolve|]); apply Forall_nil | cbn; lia]).
Qed.

Lemma decode_encode_char c b rest :
  Utf8.encode_char c = Some b ->
  Utf8.decode (b ++ rest) = Utf8.push c (Utf8.decode rest).
Proof.
  unfold Utf8.encode_char.
  destruct (Utf8.is_scalar c) eqn:S; cbn [negb]; [|discriminate].
  apply is_scalar_range in S.
  destruct (Z.ltb_spec c 0x80);
    [|destruct (Z.ltb_spec c 0x800); [|destruct (Z.ltb_spec c 0x10000)]];
    intros E; apply Some_inj in E; subst b; cbn [app Utf8.decode];
    unfold Utf8.is_cont, Utf8.is_surrogate; cbv zeta.
  - split_tests; try lia. reflexivity.
  - repeat decide_test. cbn [andb negb]. f_equal. zsolve.
  - replace ((224 + c / 4096 - 224) * 4096 + (128 + (c / 64) mod 64 - 128) * 64
             + (128 + c mod 64 - 128)) with c by zsolve.
    repeat decide_test. cbn [andb negb]. split_tests; try lia; reflexivity.
  - replace ((240 + c / 262144 - 240) * 262144
             + (128 + (c / 4096) mod 64 - 128) * 4096
             + (128 + (c / 64) mod 64 - 128) * 64
             + (128 + c mod 64 - 128)) with c by zsolve.
    repeat decide_test. reflexivity.
Qed.

Lemma decode_encode s bs : Utf8.encode s = Some bs -> Utf8.decode bs = Some s.
Proof.
  revert bs. induction s as [|c s IH]; intros bs; cbn [Utf8.encode].
  - now intros [= <-].
  - destruct (Utf8.encode_char c) as [b|] eqn:E; [|discriminate].
    destruct (Utf8.encode s) as [bs'|]; [|discriminate].
    intros H. apply Some_inj in H. subst bs.
    rewrite (decode_encode_char c b bs' E), (IH bs' eq_refl). reflexivity.
Qed.

Lemma encode_bytes s bs :
  Utf8.encode s = Some bs ->
  Forall is_byte bs /\ (List.length s <= List.length bs)%nat.
Proof.
  revert bs. induction s as [|c s IH]; intros bs; cbn [Utf8.encode].
  - intros [= <-]. split; [constructor | reflexivity].
  - destruct (Utf8.encode_char c) as [b|] eqn:E; [|discriminate].
    destruct (Utf8.encode s) as [bs'|]; [|discriminate].
    intros H. apply Some_inj in H. subst bs.
    destruct (encode_char_bytes c b E) as [Fb Lb].
    destruct (IH bs' eq_refl) as [Fs Ls].
    split; [now apply Forall_app | rewrite length_app; cbn [List.length]; lia].
Qed.

Lemma encode_total s :
  forallb Utf8.is_scalar s = true -> exists bs, Utf8.encode s = Some bs.
Proof.
  induction s as [|c s IH]; cbn [forallb Utf8.encode]; intros H.
  - now exists [].
  - apply andb_prop in H. destruct H as [Hc Hs].
    destruct (IH Hs) as [bs ->].
    unfold Utf8.encode_char. rewrite Hc. cbn [negb].
    repeat match goal with |- context [if ?t then _ else _] => destruct t end;
      eexists; reflexivity.
Qed.

(** ** The obfuscated credential *)

Lemma ascii_codec_ascii s :
  forallb is_ascii s = true -> ascii_codec s = Some s.
Proof. unfold ascii_codec. now intros ->. Qed.

(** A text with a lone surrogate has no UTF-8 form: [_encode_secret]
    raises on it. *)
Example encode_secret_surrogate :
  _encode_secret (Some [0xD800]) = Raise unicode_encode_error.
Proof. reflexivity. Qed.


(** ** Saving and loading the configuration *)

Lemma encode_secret_decodes s e :
  _encode_secret (Some s) = Ok (Some e) -> _decode_secret (Some e) = Some s.
Proof.
  unfold _encode_secret.
  destruct (falsy (Some s)) eqn:Hs; [discriminate|].
  destruct (Utf8.encode s) as [raw|] eqn:Hraw; [|discriminate].
  destruct (encode_bytes s raw Hraw) as [Hbytes Hlen].
  pose proof (b64encode_ascii raw Hbytes) as Hascii.
  rewrite (ascii_codec_ascii _ Hascii). intros [= <-].
  assert (raw <> []) as Hraw_ne.
  { destruct s; [discriminate Hs|].
    destruct raw; [cbn in Hlen; lia | discriminate]. }
  pose proof (b64encode_longer raw Hraw_ne) as Hlonger.
  unfold _decode_secret, falsy, str_eqb.
  destruct (str_eq_dec (Base64.b64encode raw) []) as [E|_].
  { rewrite E in Hlonger. cbn in Hlonger. lia. }
  rewrite (ascii_codec_ascii _ Hascii), (b64decode_b64encode raw Hbytes).
  now apply decode_encode.
Qed.

Lemma encode_secret_falsy k :
  falsy k = true -> _encode_secret k = Ok None.
Proof.
  unfold _encode_secret. destruct k as [s|]; [|reflexivity]. now intros ->.
Qed.

Lemma encode_secret_truthy s r :
  falsy (Some s) = false -> _encode_secret (Some s) = Ok r ->
  exists e, r = Some e.
Proof.
  unfold _encode_secret. intros ->.
  destruct (Utf8.encode s); [|discriminate].
  destruct (ascii_codec _); [|discriminate].
  intros [= <-]. now eexists.
Qed.

(** X14. What [save] wrote, [load] reads back: after a [save] that
    succeeded, loading the file gives the saved configuration, every
    attribute with its declared type, except that an empty credential comes
    back as no credential. *)
Theorem load_save_roundtrip (fs_open fs_write : nat -> option exn)
  (w : World) :
  fst (save fs_open fs_write w) = Ok tt ->
  exists l,
    load (config_file (snd (save fs_open fs_write w))) = Ok l
    /\ as_ServiceConfig l
       = Some (with_api_key (non_empty (api_key (config w))) (config w)).
Proof.
  unfold save.
  destruct (fs_open (save_calls w)); [discriminate|].
  unfold to_json.
  destruct (_encode_secret (api_key (config w))) as [secret|e] eqn:Hsecret;
    [|discriminate].
  destruct (dumps_error _); [discriminate|].
  destruct (fs_write (save_calls w)); [discriminate|]. intros _.
  cbn [snd config_file with_config_file].
  eexists. split; [reflexivity|].
  unfold as_ServiceConfig, with_api_key, non_empty.
  cbn [loaded_organization loaded_default_model loaded_host loaded_port
       loaded_tls_enabled loaded_consent_acknowledged loaded_api_key
       loaded_profiles].
  change (dict_get_default _ (lit "organization") JNull)
    with (json_of_option JStr (organization (config w))).
  change (dict_get_default _ (lit "default_model") _)
    with (JStr (default_model (config w))).
  change (dict_get_default _ (lit "host") _) with (JStr (host (config w))).
  change (dict_get_default _ (lit "port") _) with (JInt (port (config w))).
  change (dict_get_default _ (lit "tls_enabled") _)
    with (JBool (tls_enabled (config w))).
  change (dict_get_default _ (lit "consent_acknowledged") _)
    with (JBool (consent_acknowledged (config w))).
  change (dict_get_default _ (lit "profiles") _) with (profiles (config w)).
  change (dict_get _ (lit "api_key")) with (Some (json_of_option JStr secret)).
  assert (decode_stored_secret (Some (json_of_option JStr secret))
          = if falsy (api_key (config w)) then None
            else api_key (config w)) as Hkey.
  { destruct (falsy (api_key (config w))) eqn:Hf.
    - rewrite (encode_secret_falsy _ Hf) in Hsecret.
      injection Hsecret as <-. reflexivity.
    - destruct (api_key (config w)) as [s|]; [|discriminate].
      destruct (encode_secret_truthy s secret Hf Hsecret) as [e ->].
      cbn [json_of_option decode_stored_secret].
      now apply encode_secret_decodes. }
  rewrite Hkey.
  destruct (organization (config w)); reflexivity.
Qed.

(** X15. A [save] that fails after the file was opened leaves a file that
    cannot be loaded, whatever the file held before; a [save] that fails to
    open the file leaves the file as it was. *)
Theorem load_after_failed_save (fs_open fs_write : nat -> option exn)
  (w : World) (e : exn) :
  fst (save fs_open fs_write w) = Raise e ->
  (fs_open (save_calls w) = None ->
   load (config_file (snd (save fs_open fs_write w)))
   = Raise (Exn JSONDecodeError BuiltinText))
  /\ (fs_open (save_calls w) <> None ->
      config_file (snd (save fs_open fs_write w)) = config_file w).
Proof.
  unfold save.
  destruct (fs_open (save_calls w)) as [e0|].
  - intros _. split; [discriminate | reflexivity].
  - destruct (to_json (config w)) as [data|e1].
    + destruct (dumps_error data);
        [intros _; split; [reflexivity | congruence]|].
      destruct (fs_write (save_calls w)); [|discriminate].
      intros _. split; [reflexivity | congruence].
    + intros _. split; [reflexivity | congruence].
Qed.

Lemma decode_scalar_bounded (n : nat) :
  forall bs s,
    (List.length bs <= n)%nat ->
    Utf8.decode bs = Some s -> forallb Utf8.is_scalar s = true.
Proof.
  induction n as [|n IH]; intros bs s Hlen.
  - destruct bs; [|cbn in Hlen; lia]. now intros [= <-].
  - destruct bs as [|b0 r0]; [now intros [= <-]|].
    cbn [List.length] in Hlen.
    assert (forall c r t,
               (List.length r <= n)%nat ->
               Utf8.is_scalar c = true ->
               Utf8.push c (Utf8.decode r) = Some t ->
               forallb Utf8.is_scalar t = true) as Hpush.
    { intros c r t Hr Hc. unfold Utf8.push.
      destruct (Utf8.decode r) as [t'|] eqn:Hd; [|discriminate].
      intros [= <-]. cbn [forallb]. rewrite Hc. exact (IH r t' Hr Hd). }
    cbn [Utf8.decode].
    destruct ((0 <=? b0) && (b0 <? 128)) eqn:T1.
    { apply Hpush; [lia|].
      unfold Utf8.is_scalar, Utf8.is_surrogate.
      apply andb_prop in T1. destruct T1 as [A B].
      apply Z.leb_le in A. apply Z.ltb_lt in B.
      repeat decide_test. reflexivity. }
    destruct ((194 <=? b0) && (b0 <=? 223)) eqn:T2.
    { destruct r0 as [|b1 r1]; [discriminate|].
      destruct (Utf8.is_cont b1) eqn:C1; [|discriminate].
      cbn [List.length] in Hlen.
      apply Hpush; [lia|].
      unfold Utf8.is_cont in C1.
      apply andb_prop in T2, C1. destruct T2 as [A B], C1 as [C D].
      apply Z.leb_le in A, B, C, D.
      unfold Utf8.is_scalar, Utf8.is_surrogate.
      repeat decide_test. reflexivity. }
    destruct ((224 <=? b0) && (b0 <=? 239)) eqn:T3.
    { destruct r0 as [|b1 [|b2 r2]]; try discriminate.
      cbv zeta.
      destruct (Utf8.is_cont b1 && Utf8.is_cont b2
                && (2048 <=? (b0 - 224) * 4096 + (b1 - 128) * 64 + (b2 - 128))
                && negb (Utf8.is_surrogate
                           ((b0 - 224) * 4096 + (b1 - 128) * 64 + (b2 - 128))))
        eqn:C; [|discriminate].
      cbn [List.length] in Hlen.
      apply Hpush; [lia|].
      apply andb_prop in C. destruct C as [C Csur].
      apply andb_prop in C. destruct C as [C Clow].
      apply andb_prop in C. destruct C as [C1 C2].
      unfold Utf8.is_cont in C1, C2.
      apply andb_prop in T3, C1, C2.
      destruct T3 as [A B], C1 as [D1 D2], C2 as [D3 D4].
      apply Z.leb_le in A, B, D1, D2, D3, D4, Clow.
      unfold Utf8.is_scalar. rewrite Csur.
      repeat decide_test. reflexivity. }
    destruct ((240 <=? b0) && (b0 <=? 244)) eqn:T4; [|discriminate].
    destruct r0 as [|b1 [|b2 [|b3 r3]]]; try discriminate.
    cbv zeta.
    destruct (Utf8.is_cont b1 && Utf8.is_cont b2 && Utf8.is_cont b3
              && (65536 <=? (b0 - 240) * 262144 + (b1 - 128) * 4096
                            + (b2 - 128) * 64 + (b3 - 128))
              && ((b0 - 240) * 262144 + (b1 - 128) * 4096
                  + (b2 - 128) * 64 + (b3 - 128) <? 1114112))
      eqn:C; [|discriminate].
    cbn [List.length] in Hlen.
    apply Hpush; [lia|].
    apply andb_prop in C. destruct C as [C Chigh].
    apply andb_prop in C. destruct C as [_ Clow].
    apply Z.leb_le in Clow. apply Z.ltb_lt in Chigh.
    unfold Utf8.is_scalar, Utf8.is_surrogate.
    repeat decide_test. reflexivity.
Qed.

Lemma decode_secret_scalar k s :
  _decode_secret k = Some s -> forallb Utf8.is_scalar s = true.
Proof.
  unfold _decode_secret. destruct k as [t|]; [|discriminate].
  destruct (falsy (Some t)); [discriminate|].
  destruct (ascii_codec t); [|discriminate].
  destruct (Base64.b64decode l) as [b|]; [|discriminate].
  apply (decode_scalar_bounded (List.length b)). apply Nat.le_refl.
Qed.

(** X16. Whatever the configuration file holds, a configuration that
    [load] returns has a credential that [_encode_secret] can encode: the
    credential that was read never makes a later [save] raise. *)
Theorem load_credential_encodable (file : ConfigFile) (l : LoadedConfig) :
  load file = Ok l ->
  exists r, _encode_secret (loaded_api_key l) = Ok r.
Proof.
  intros Hload.
  assert (loaded_api_key l = None
          \/ exists k, _decode_secret k = loaded_api_key l) as Hkey.
  { destruct file as [| |data]; cbn [load] in Hload.
    - injection Hload as <-. now left.
    - discriminate.
    - destruct data; try discriminate. injection Hload as <-.
      cbn [loaded_api_key]. unfold decode_stored_secret.
      destruct (dict_get items (lit "api_key")) as [[]|]; try (now left).
      right. now eexists. }
  destruct Hkey as [-> | (k & Hk)]; [now eexists|].
  destruct (loaded_api_key l) as [s|]; [|now eexists].
  pose proof (decode_secret_scalar k s Hk) as Hscalar.
  unfold _encode_secret.
  destruct (falsy (Some s)); [now eexists|].
  destruct (encode_total s Hscalar) as [raw Hraw]. rewrite Hraw.
  destruct (encode_bytes s raw Hraw) as [Hbytes _].
  rewrite (ascii_codec_ascii _ (b64encode_ascii raw Hbytes)).
  now eexists.
Qed.

(** * The properties on sample requests *)

#[local] Abbreviation sample_call r :=
  (call_openai Sample.float_of_str Sample.json_loads Sample.int_unicode
     Sample.lower_unicode Sample.time_time (Sample.answers r)).

#[local] Abbreviation sample_POST fs_open fs_write :=
  (do_POST Sample.float_of_str Sample.py_repr Sample.json_loads
     Sample.int_unicode Sample.lower_unicode Sample.buffer_ok
     Sample.time_time (Sample.answers Sample.success) fs_open fs_write).

#[local] Abbreviation sample_read :=
  (_read_json Sample.json_loads Sample.int_unicode Sample.buffer_ok).

(** C1 on a service whose consent flag is not set. *)
Lemma call_openai_not_ready_witness :
  consent_acknowledged (config (Sample.started Sample.cfg_no_consent)) = false
  /\ exists e,
       sample_call Sample.success Sample.chat_payload
         (Sample.started Sample.cfg_no_consent)
       = (Raise e, Sample.started Sample.cfg_no_consent)
       /\ (e = API_KEY_NOT_CONFIGURED \/ e = CONSENT_NOT_ACKNOWLEDGED).
Proof.
  split; [reflexivity|].
  destruct (call_openai_not_ready Sample.float_of_str Sample.json_loads
              Sample.int_unicode Sample.lower_unicode
              Sample.time_time (Sample.answers Sample.success)
              Sample.chat_payload (Sample.started Sample.cfg_no_consent)
              (or_intror eq_refl)) as (e & H1 & H2 & _).
  exists e. split; assumption.
Defined.

(** C2 as the specification states it fails on an answer with status 300:
    the status is not a 2xx one, yet [call_openai] returns the body and
    commits a snapshot. *)
Lemma call_openai_status_300_counterexample :
  status_code Sample.multiple_choices = 300
  /\ fst (sample_call Sample.multiple_choices Sample.chat_payload
            (Sample.started Sample.cfg_ready)) = Ok (JDict [])
  /\ remaining_requests (rate_limit (Sample.started Sample.cfg_ready)) = None
  /\ remaining_requests
       (rate_limit
          (snd (sample_call Sample.multiple_choices Sample.chat_payload
                  (Sample.started Sample.cfg_ready)))) = Some 7.
Proof. repeat split; vm_compute; reflexivity. Qed.

(** C2 on a 401 answer with the body [invalid key]. *)
Lemma call_openai_upstream_error_witness :
  400 <= status_code Sample.unauthorized
  /\ fst (sample_call Sample.unauthorized Sample.chat_payload
            (Sample.started Sample.cfg_ready))
     = Raise (Exn RuntimeError (Text (lit "OpenAI error 401: invalid key")))
  /\ rate_limit
       (snd (sample_call Sample.unauthorized Sample.chat_payload
               (Sample.started Sample.cfg_ready)))
     = rate_limit (Sample.started Sample.cfg_ready).
Proof.
  assert (400 <= status_code Sample.unauthorized) as Hstatus
    by (cbn; lia).
  destruct (call_openai_upstream_error Sample.float_of_str Sample.json_loads
              Sample.int_unicode Sample.lower_unicode
              Sample.time_time (Sample.answers Sample.unauthorized)
              [(lit "messages", JList [])] (Sample.started Sample.cfg_ready)
              Sample.unauthorized eq_refl eq_refl eq_refl Hstatus)
    as (Hcall & Hrl & _).
  split; [exact Hstatus|]. split; [|exact Hrl].
  unfold Sample.chat_payload. rewrite Hcall. reflexivity.
Defined.

(** C3 as the specification states it fails on a service whose default
    model is a lone surrogate (a configuration request can set it, with
    the JSON escape of the surrogate): the upstream answer is a success
    that carries the two headers and the snapshot holds 42 and 1000, yet the
    status request that follows reports nothing, it raises. *)
Lemma call_openai_surrogate_model_counterexample :
  status_code Sample.success = 200
  /\ default_model Sample.cfg_surrogate = [0xD800]
  /\ fst (sample_call Sample.success Sample.chat_payload
            (Sample.started Sample.cfg_surrogate)) = Ok (JDict [])
  /\ remaining_requests
       (rate_limit
          (snd (sample_call Sample.success Sample.chat_payload
                  (Sample.started Sample.cfg_surrogate)))) = Some 42
  /\ remaining_tokens
       (rate_limit
          (snd (sample_call Sample.success Sample.chat_payload
                  (Sample.started Sample.cfg_surrogate)))) = Some 1000
  /\ fst (do_GET Sample.get_status
            (snd (sample_call Sample.success Sample.chat_payload
                    (Sample.started Sample.cfg_surrogate))))
     = Raise (Exn UnicodeEncodeError BuiltinText).
Proof. repeat split; vm_compute; reflexivity. Qed.


(** C5 on the patch [{"default_model": "x"}]. *)
Lemma config_patch_applies_witness :
  fst (sample_read (Sample.post_config Sample.DEFAULT_MODEL_X)
         (Sample.started Sample.cfg_ready))
  = Ok (JDict [(lit "default_model", JStr (lit "x"))])
  /\ config (snd (sample_POST Sample.fs_ok Sample.fs_ok
                    (Sample.post_config Sample.DEFAULT_MODEL_X)
                    (Sample.started Sample.cfg_ready)))
     = with_default_model (lit "x") Sample.cfg_ready
  /\ save_calls (snd (sample_POST Sample.fs_ok Sample.fs_ok
                        (Sample.post_config Sample.DEFAULT_MODEL_X)
                        (Sample.started Sample.cfg_ready)))
     = 1%nat
  /\ fst (sample_POST Sample.fs_ok Sample.fs_ok
            (Sample.post_config Sample.DEFAULT_MODEL_X)
            (Sample.started Sample.cfg_ready))
     = Ok {| http_status := 200; http_body := StatusOk |}.
Proof.
  assert (fst (sample_read (Sample.post_config Sample.DEFAULT_MODEL_X)
                 (Sample.started Sample.cfg_ready))
          = Ok (JDict [(lit "default_model", JStr (lit "x"))])) as Hread
    by (vm_compute; reflexivity).
  split; [exact Hread|].
  destruct (config_patch_applies Sample.float_of_str Sample.py_repr
              Sample.json_loads Sample.int_unicode Sample.lower_unicode
              Sample.buffer_ok Sample.time_time
              (Sample.answers Sample.success) Sample.fs_ok Sample.fs_ok
              (Sample.post_config Sample.DEFAULT_MODEL_X)
              [(lit "default_model", JStr (lit "x"))]
              (Sample.started Sample.cfg_ready) eq_refl Hread)
    as (_ & _ & _ & _ & _ & _ & _ & _ & _ & Hsave & Hfile & Honly).
  split; [exact (Honly (lit "x") eq_refl)|]. split; [exact Hsave|].
  pose (data := match to_json (with_default_model (lit "x") Sample.cfg_ready)
                with
                | Ok v => v
                | Raise _ => JNull
                end).
  assert (to_json (patched Sample.py_repr
                     [(lit "default_model", JStr (lit "x"))]
                     (config (Sample.started Sample.cfg_ready)))
          = Ok data) as Hjson by (vm_compute; reflexivity).
  assert (dumps_error data = None) as Hdumps by (vm_compute; reflexivity).
  exact (proj1 (Hfile data eq_refl eq_refl Hjson Hdumps)).
Defined.



(** C6 on a Content-Length of -2: the connection refuses the length, and
    the text of the error is the interpreter's, not [Invalid JSON
    payload]. *)
Example config_negative_content_length :
  sample_POST Sample.fs_ok Sample.fs_ok
    {| path := lit "/config"; content_length := Some (lit "-2");
       rfile := lit "{}" |}
    (Sample.started Sample.cfg_ready)
  = (Ok {| http_status := 400; http_body := ErrorPayload BuiltinText |},
     Sample.started Sample.cfg_ready).
Proof. vm_compute. reflexivity. Qed.

(** C7 on a configuration file that cannot be opened. *)
Lemma config_persist_failure_witness :
  fst (sample_POST Sample.fs_denied Sample.fs_ok
         (Sample.post_config Sample.DEFAULT_MODEL_X)
         (Sample.started Sample.cfg_ready))
  = Ok {| http_status := 400;
          http_body :=
            ErrorPayload (Text (lit "[Errno 13] Permission denied")) |}
  /\ default_model
       (config (snd (sample_POST Sample.fs_denied Sample.fs_ok
                       (Sample.post_config Sample.DEFAULT_MODEL_X)
                       (Sample.started Sample.cfg_ready))))
     = lit "x".
Proof.
  assert (fst (sample_read (Sample.post_config Sample.DEFAULT_MODEL_X)
                 (Sample.started Sample.cfg_ready))
          = Ok (JDict [(lit "default_model", JStr (lit "x"))])) as Hread
    by (vm_compute; reflexivity).
  destruct (config_persist_failure Sample.float_of_str Sample.py_repr
              Sample.json_loads Sample.int_unicode Sample.lower_unicode
              Sample.buffer_ok Sample.time_time
              (Sample.answers Sample.success) Sample.fs_denied Sample.fs_ok
              (Sample.post_config Sample.DEFAULT_MODEL_X)
              [(lit "default_model", JStr (lit "x"))]
              (Sample.started Sample.cfg_ready)
              (Exn OSError (Text (lit "[Errno 13] Permission denied")))
              eq_refl Hread eq_refl)
    as (Hresp & _ & _ & _ & Hmodel & _).
  split; [apply Hresp; vm_compute; reflexivity|].
  exact (Hmodel (lit "x") eq_refl).
Defined.

(** C7 on a patch that cannot be written to the file: the default model is
    a lone surrogate, [save] raises, the answer is 400, and the
    configuration holds the surrogate all the same. *)
Example config_persist_surrogate :
  fst (do_POST Sample.float_of_str Sample.py_repr
         (fun _ => inl (JDict [(lit "default_model", JStr [0xD800])]))
         Sample.int_unicode Sample.lower_unicode Sample.buffer_ok
         Sample.time_time (Sample.answers Sample.success) Sample.fs_ok
         Sample.fs_ok (Sample.post_config Sample.EMPTY_OBJECT)
         (Sample.started Sample.cfg_ready))
  = Ok {| http_status := 400; http_body := ErrorPayload BuiltinText |}
  /\ default_model
       (config
          (snd (do_POST Sample.float_of_str Sample.py_repr
                  (fun _ => inl (JDict [(lit "default_model", JStr [0xD800])]))
                  Sample.int_unicode Sample.lower_unicode Sample.buffer_ok
                  Sample.time_time (Sample.answers Sample.success)
                  Sample.fs_ok Sample.fs_ok
                  (Sample.post_config Sample.EMPTY_OBJECT)
                  (Sample.started Sample.cfg_ready))))
     = [0xD800].
Proof. split; vm_compute; reflexivity. Qed.

(** C8 as the specification states it fails on a credential that is a lone
    surrogate: the string is not empty, yet [_encode_secret] raises on it,
    so that there is no encoded form to decode, and [to_json] raises with
    it. *)
Lemma secret_surrogate_counterexample :
  [0xD800] <> ([] : str)
  /\ _encode_secret (Some [0xD800])
     = Raise (Exn UnicodeEncodeError BuiltinText)
  /\ to_json (with_api_key (Some [0xD800]) Sample.cfg_ready)
     = Raise (Exn UnicodeEncodeError BuiltinText).
Proof. repeat split; discriminate || reflexivity. Qed.


(** C9 on two credentials. *)
Lemma status_hides_credential_witness :
  fst (do_GET Sample.get_status
         (with_config (with_api_key (Some (lit "sk-one")) Sample.cfg_ready)
            (Sample.started Sample.cfg_ready)))
  = fst (do_GET Sample.get_status
           (with_config (with_api_key (Some (lit "sk-two")) Sample.cfg_ready)
              (Sample.started Sample.cfg_ready))).
Proof.
  apply (status_hides_credential Sample.get_status
           (Sample.started Sample.cfg_ready) (lit "sk-one") (lit "sk-two")).
  - vm_compute. discriminate.
  - vm_compute. discriminate.
Defined.

(** C10 on a header map with unreadable values, mixed case and a header of
    another name. *)
Example update_rate_limit_unreadable :
  rate_limit
    (snd (update_rate_limit Sample.float_of_str Sample.int_unicode
            Sample.lower_unicode Sample.time_time
            [ (lit "X-RateLimit-Remaining-Requests", lit "many");
              (lit "x-ratelimit-remaining-TOKENS", lit "1000");
              (lit "X-Ratelimit-Reset-Requests", lit "soon");
              (lit "Date", lit "today") ]
            (JStr (lit "gpt-4o")) (Sample.started Sample.cfg_ready)))
  = {| remaining_requests := None; remaining_tokens := Some 1000;
       reset_timestamp := None; model := Some (JStr (lit "gpt-4o")) |}.
Proof. vm_compute. reflexivity. Qed.

(** C10 on a value written with the Arabic-Indic digits four and two, which
    [int] reads as 42. *)
Example update_rate_limit_other_digits :
  remaining_requests
    (rate_limit
       (snd (update_rate_limit Sample.float_of_str Sample.int_unicode
               Sample.lower_unicode Sample.time_time
               [(lit "X-RATELIMIT-REMAINING-REQUESTS", [0x664; 0x662])]
               (JStr (lit "gpt-4o")) (Sample.started Sample.cfg_ready))))
  = Some 42.
Proof. vm_compute. reflexivity. Qed.

(** * The further properties on sample requests *)

#[local] Abbreviation more_POST post fs_open fs_write :=
  (do_POST Sample.float_of_str Sample.py_repr Sample.json_loads_all
     Sample.int_unicode Sample.lower_unicode Sample.buffer_ok
     Sample.time_time post fs_open fs_write).

#[local] Abbreviation more_call post :=
  (call_openai Sample.float_of_str Sample.json_loads_all Sample.int_unicode
     Sample.lower_unicode Sample.time_time post).

#[local] Abbreviation more_read :=
  (_read_json Sample.json_loads_all Sample.int_unicode Sample.buffer_ok).


(** X1 on an upstream body that holds a lone surrogate: the answer cannot
    be written, and the chat request is answered with status 500. *)
Example chat_result_surrogate :
  fst (more_POST (Sample.answers Sample.success_surrogate) Sample.fs_ok
         Sample.fs_ok (Sample.post_chat Sample.CHAT_BODY)
         (Sample.started Sample.cfg_ready))
  = Ok {| http_status := 500; http_body := ErrorPayload BuiltinText |}.
Proof. vm_compute. reflexivity. Qed.

(** X2 on a chat request whose body is an array. *)
Lemma chat_rejected_before_upstream_witness :
  exists text,
    more_POST (Sample.answers Sample.success) Sample.fs_ok Sample.fs_ok
      (Sample.post_chat Sample.EMPTY_ARRAY) (Sample.started Sample.cfg_ready)
    = (Ok {| http_status := 500; http_body := ErrorPayload text |},
       Sample.started Sample.cfg_ready).
Proof.
  apply (chat_rejected_before_upstream Sample.float_of_str Sample.py_repr
           Sample.json_loads_all Sample.int_unicode Sample.lower_unicode
           Sample.buffer_ok Sample.time_time
           (Sample.answers Sample.success) Sample.fs_ok Sample.fs_ok
           (Sample.post_chat Sample.EMPTY_ARRAY)
           (Sample.started Sample.cfg_ready) eq_refl).
  right. right. right. exists (JList []).
  split; [vm_compute; reflexivity | discriminate].
Defined.

(** X2 on a body that is a numeral past the digit limit: [json.loads]
    raises a ValueError, which keeps its text. *)
Example chat_long_numeral :
  more_POST (Sample.answers Sample.success) Sample.fs_ok Sample.fs_ok
    (Sample.post_chat Sample.LONG_NUMERAL) (Sample.started Sample.cfg_ready)
  = (Ok {| http_status := 500; http_body := ErrorPayload BuiltinText |},
     Sample.started Sample.cfg_ready).
Proof. vm_compute. reflexivity. Qed.

(** X3 on a 200 answer whose body is HTML. *)
Lemma chat_commits_before_parsing_witness :
  fst (more_POST (Sample.answers Sample.success_html) Sample.fs_ok
         Sample.fs_ok (Sample.post_chat Sample.CHAT_BODY)
         (Sample.started Sample.cfg_ready))
  = Ok {| http_status := 500; http_body := ErrorPayload BuiltinText |}
  /\ remaining_requests
       (rate_limit
          (snd (more_POST (Sample.answers Sample.success_html) Sample.fs_ok
                  Sample.fs_ok (Sample.post_chat Sample.CHAT_BODY)
                  (Sample.started Sample.cfg_ready))))
     = Some 9.
Proof.
  assert (fst (more_read (Sample.post_chat Sample.CHAT_BODY)
                 (Sample.started Sample.cfg_ready))
          = Ok (JDict [(lit "messages", JList [])])) as Hread
    by (vm_compute; reflexivity).
  assert (status_code Sample.success_html < 400) as Hstatus by (cbn; lia).
  destruct (chat_commits_before_parsing Sample.float_of_str Sample.py_repr
              Sample.json_loads_all Sample.int_unicode Sample.lower_unicode
              Sample.buffer_ok Sample.time_time
              (Sample.answers Sample.success_html) Sample.fs_ok Sample.fs_ok
              (Sample.post_chat Sample.CHAT_BODY)
              [(lit "messages", JList [])] (Sample.started Sample.cfg_ready)
              Sample.success_html JSONDecodeError
              eq_refl Hread eq_refl eq_refl eq_refl Hstatus eq_refl)
    as (Hresp & Hrl & _).
  split; [exact Hresp|]. rewrite Hrl. reflexivity.
Defined.

(** X4 on an upstream API that cannot be reached. *)
Lemma call_openai_transport_error_witness :
  fst (more_call Sample.unreachable Sample.chat_payload
         (Sample.started Sample.cfg_ready))
  = Raise (Exn RequestException (Text (lit "Connection refused")))
  /\ rate_limit (snd (more_call Sample.unreachable Sample.chat_payload
                        (Sample.started Sample.cfg_ready)))
     = rate_limit (Sample.started Sample.cfg_ready).
Proof.
  pose proof (call_openai_transport_error Sample.float_of_str
                Sample.json_loads_all Sample.int_unicode
                Sample.lower_unicode Sample.time_time Sample.unreachable
                [(lit "messages", JList [])] (Sample.started Sample.cfg_ready)
                (Exn RequestException (Text (lit "Connection refused")))
                eq_refl eq_refl eq_refl) as Hcall.
  unfold Sample.chat_payload. rewrite Hcall. split; reflexivity.
Defined.

(** X5 on a payload that names no model. *)
Lemma call_openai_outgoing_call_witness :
  upstream_calls (snd (more_call (Sample.answers Sample.success)
                         Sample.chat_payload
                         (Sample.started Sample.cfg_ready)))
  = [ {| url := lit "https://api.openai.com/v1/chat/completions";
         post_headers :=
           [ (lit "Authorization", lit "Bearer sk-test");
             (lit "Content-Type", lit "application/json") ];
         post_json :=
           JDict [ (lit "messages", JList []);
                   (lit "model", JStr (lit "gpt-4o")) ];
         timeout := 90 |} ].
Proof.
  destruct (call_openai_outgoing_call Sample.float_of_str
              Sample.json_loads_all Sample.int_unicode Sample.lower_unicode
              Sample.time_time (Sample.answers Sample.success)
              [(lit "messages", JList [])] (Sample.started Sample.cfg_ready)
              eq_refl eq_refl) as [Hcalls _].
  unfold Sample.chat_payload. rewrite Hcalls. reflexivity.
Defined.

(** X6 on a status request to a service whose default model is a lone
    surrogate: the handler raises. *)
Example do_GET_surrogate :
  do_GET Sample.get_status (Sample.started Sample.cfg_surrogate)
  = (Raise (Exn UnicodeEncodeError BuiltinText),
     Sample.started Sample.cfg_surrogate)
  /\ fst (do_GET Sample.get_status (Sample.started Sample.cfg_no_key))
     = Ok {| http_status := 200;
             http_body :=
               StatusPayload
                 {| st_ready := false;
                    st_error :=
                      Some (Text (ulit "API key not configured. Запустите скрипт с флагом --setup."));
                    st_host := lit "127.0.0.1";
                    st_port := 3925;
                    st_default_model := lit "gpt-4o";
                    st_profiles := JDict [];
                    st_rate_limit :=
                      [ (lit "model", JNull);
                        (lit "remaining_requests", JNull);
                        (lit "remaining_tokens", JNull);
                        (lit "reset_timestamp", JNull) ] |} |}.
Proof. split; vm_compute; reflexivity. Qed.

(** X8 on three requests to a service without a credential. *)
Lemma serve_without_credential_witness :
  upstream_calls
    (serve Sample.float_of_str Sample.py_repr Sample.json_loads_all
       Sample.int_unicode Sample.lower_unicode Sample.buffer_ok
       Sample.time_time (Sample.answers Sample.success) Sample.fs_ok
       Sample.fs_ok Sample.three_requests (Sample.started Sample.cfg_no_key))
  = [].
Proof.
  destruct (serve_without_credential Sample.float_of_str Sample.py_repr
              Sample.json_loads_all Sample.int_unicode Sample.lower_unicode
              Sample.buffer_ok Sample.time_time
              (Sample.answers Sample.success) Sample.fs_ok Sample.fs_ok
              Sample.three_requests (Sample.started Sample.cfg_no_key)
              eq_refl) as [Hcalls _].
  exact Hcalls.
Defined.


(** X11 on the body [5]. *)
Lemma config_scalar_body_rejected_witness :
  more_POST (Sample.answers Sample.success) Sample.fs_ok Sample.fs_ok
    (Sample.post_config Sample.FIVE) (Sample.started Sample.cfg_ready)
  = (Ok {| http_status := 400; http_body := ErrorPayload BuiltinText |},
     Sample.started Sample.cfg_ready).
Proof.
  apply (config_scalar_body_rejected Sample.float_of_str Sample.py_repr
           Sample.json_loads_all Sample.int_unicode Sample.lower_unicode
           Sample.buffer_ok Sample.time_time
           (Sample.answers Sample.success) Sample.fs_ok Sample.fs_ok
           (Sample.post_config Sample.FIVE) (JInt 5)
           (Sample.started Sample.cfg_ready) eq_refl).
  - vm_compute. reflexivity.
  - reflexivity.
Defined.


(** X14 on a configuration with a credential. *)
Lemma load_save_roundtrip_witness :
  exists l,
    load (config_file (snd (save Sample.fs_ok Sample.fs_ok
                              (Sample.started Sample.cfg_ready)))) = Ok l
    /\ as_ServiceConfig l = Some Sample.cfg_ready.
Proof.
  exact (load_save_roundtrip Sample.fs_ok Sample.fs_ok
           (Sample.started Sample.cfg_ready) eq_refl).
Defined.

(** X15 on a file that held a configuration and a write that fails. *)
Lemma load_after_failed_save_witness :
  load (config_file
          (snd (save Sample.fs_ok Sample.fs_denied
                  (with_config_file (Stored (JDict []))
                     (Sample.started Sample.cfg_ready)))))
  = Raise (Exn JSONDecodeError BuiltinText).
Proof.
  exact (proj1 (load_after_failed_save Sample.fs_ok Sample.fs_denied
                  (with_config_file (Stored (JDict []))
                     (Sample.started Sample.cfg_ready))
                  (Exn OSError (Text (lit "[Errno 13] Permission denied")))
                  eq_refl) eq_refl).
Defined.

(** X16 on a file that holds an encoded credential. *)
Lemma load_credential_encodable_witness :
  exists l r,
    load (Stored (JDict [(lit "api_key", JStr (lit "c2st0LrQu9GO0Yc="))]))
    = Ok l
    /\ loaded_api_key l = Some (ulit "sk-ключ")
    /\ _encode_secret (loaded_api_key l) = Ok r.
Proof.
  eexists.
  destruct (load_credential_encodable
              (Stored (JDict [(lit "api_key", JStr (lit "c2st0LrQu9GO0Yc="))]))
              _ eq_refl) as [r Hr].
  exists r. split; [reflexivity|]. split; [reflexivity | exact Hr].
Defined.

(** X18 on the patch [{"consent_acknowledged": "false"}]. *)
Lemma config_converts_values_witness :
  consent_acknowledged
    (config (snd (more_POST (Sample.answers Sample.success) Sample.fs_ok
                    Sample.fs_ok
                    (Sample.post_config Sample.CONSENT_FALSE_TEXT)
                    (Sample.started Sample.cfg_no_consent))))
  = true.
Proof.
  assert (fst (more_read (Sample.post_config Sample.CONSENT_FALSE_TEXT)
                 (Sample.started Sample.cfg_no_consent))
          = Ok (JDict [(lit "consent_acknowledged", JStr (lit "false"))]))
    as Hread by (vm_compute; reflexivity).
  destruct (config_converts_values Sample.float_of_str Sample.py_repr
              Sample.json_loads_all Sample.int_unicode Sample.lower_unicode
              Sample.buffer_ok Sample.time_time
              (Sample.answers Sample.success) Sample.fs_ok Sample.fs_ok
              (Sample.post_config Sample.CONSENT_FALSE_TEXT)
              [(lit "consent_acknowledged", JStr (lit "false"))]
              (Sample.started Sample.cfg_no_consent) eq_refl Hread)
    as (_ & Hstr & _).
  apply (Hstr (lit "false") eq_refl). vm_compute. discriminate.
Defined.

(** X17 on a 204 answer: the key check raises. *)
Example check_key_no_content :
  check_key (fun _ => Ok Sample.no_content) Sample.cfg_ready
  = ([ {| get_url := lit "https://api.openai.com/v1/models";
          get_headers := [(lit "Authorization", lit "Bearer sk-test")];
          get_timeout := 30 |} ],
     Raise (Exn RuntimeError
              (Text (ulit "Не удалось подтвердить ключ (status=204): ")))).
Proof. vm_compute. reflexivity. Qed.

(** X9 and X7 on three requests to a ready service. *)
Example serve_three_requests :
  List.length
    (upstream_calls
       (serve Sample.float_of_str Sample.py_repr Sample.json_loads_all
          Sample.int_unicode Sample.lower_unicode Sample.buffer_ok
          Sample.time_time (Sample.answers Sample.success) Sample.fs_ok
          Sample.fs_ok Sample.three_requests
          (Sample.started Sample.cfg_ready))) = 1%nat
  /\ save_calls
       (serve Sample.float_of_str Sample.py_repr Sample.json_loads_all
          Sample.int_unicode Sample.lower_unicode Sample.buffer_ok
          Sample.time_time (Sample.answers Sample.success) Sample.fs_ok
          Sample.fs_ok Sample.three_requests
          (Sample.started Sample.cfg_ready)) = 1%nat.
Proof. split; vm_compute; reflexivity. Qed.
